(** * The trade-history importer ([import_to_supabase.py])

    A shallow embedding of the script and the properties of its two
    passes: the stock pass (lines 31-55), which fills the dictionary
    [stocks], and the trade pass (lines 57-86), which inserts one trade
    per complete row.

    Conventions of the embedding.
    - The frame is the list of rows that lines 13-16 leave in [df].
    - A cell of the data frame is a Python object: [None], a float NaN,
      a [str], or a number.  Numbers are kept as exact rationals; the
      script only tests them against zero and passes them through.
    - A [str] is a Rocq [string].
    - An exception is a value of [exn]; a computation that may raise
      returns a [result].
    - The remote store and the library functions the script calls on a
      trade ([str.upper], [pd.to_datetime], [Timestamp.strftime]) are not
      part of the script: they are parameters (classes [Remote] and
      [Library]).  Every request the script issues is appended to a log,
      so that requests can be counted. *)

From Stdlib Require Import ZArith String Ascii List.
From Stdlib Require QArith_base.
From stdpp Require Import base option list gmap strings.

Local Open Scope string_scope.

(** ** Python objects found in a cell *)

Inductive value : Type :=
  | VNone
  | VNaN
  | VStr (s : string)
  | VNum (q : QArith_base.Q).

Inductive exn : Type :=
  | TypeError
  | AttributeError
  | IndexError
  | ValueError
  | APIError.

Inductive result (A : Type) : Type :=
  | Ok (a : A)
  | Raise (e : exn).
Arguments Ok {A} a.
Arguments Raise {A} e.

#[global] Instance Q_eq_dec : EqDecision QArith_base.Q.
Proof. solve_decision. Defined.

#[global] Instance value_eq_dec : EqDecision value.
Proof. solve_decision. Defined.

Definition value_enc (v : value) : unit + unit + string + Z * positive :=
  match v with
  | VNone => inl (inl (inl tt))
  | VNaN => inl (inl (inr tt))
  | VStr s => inl (inr s)
  | VNum q => inr (QArith_base.Qnum q, QArith_base.Qden q)
  end.

Definition value_dec (x : unit + unit + string + Z * positive) : value :=
  match x with
  | inl (inl (inl _)) => VNone
  | inl (inl (inr _)) => VNaN
  | inl (inr s) => VStr s
  | inr (n, d) => VNum (QArith_base.Qmake n d)
  end.

#[global] Instance value_countable : Countable value.
Proof.
  refine (inj_countable' value_enc value_dec _).
  intros [| | s | [n d]]; reflexivity.
Defined.

(** [bool(x)]: [None], the empty string and zero are falsy; NaN is a
    non-zero float, hence truthy. *)
Definition truthy (x : value) : bool :=
  match x with
  | VNone => false
  | VNaN => true
  | VStr s => negb (String.eqb s EmptyString)
  | VNum q => negb (Z.eqb (QArith_base.Qnum q) 0)
  end.

(** [pd.isna(x)] on a scalar. *)
Definition isna (x : value) : bool :=
  match x with
  | VNone | VNaN => true
  | _ => false
  end.

(** ** Strings *)

Definition dot : ascii := "."%char.

(** ['.' in s] *)
Fixpoint contains_dot (s : string) : bool :=
  match s with
  | EmptyString => false
  | String c s' => if Ascii.eqb c dot then true else contains_dot s'
  end.

(** [s.split('.')]: the pieces between the separators, never empty. *)
Fixpoint split_dot (s : string) : list string :=
  match s with
  | EmptyString => [EmptyString]
  | String c s' =>
      if Ascii.eqb c dot then EmptyString :: split_dot s'
      else match split_dot s' with
           | [] => [String c EmptyString]
           | p :: ps => String c p :: ps
           end
  end.

(** [parts[i]], with Python's IndexError out of range. *)
Definition index {A : Type} (parts : list A) (i : nat) : result A :=
  match parts !! i with
  | Some x => Ok x
  | None => Raise IndexError
  end.

(** Lines 19-23.
<<
def split_ticker_exchange(ticker_str):
    if ticker_str and '.' in ticker_str:
        parts = ticker_str.split('.')
        return parts[0], parts[1]
    return ticker_str, ''
>>
    [and] short-circuits, so a falsy object of any type is returned as it
    is; on a truthy object that is not a string, ['.' in] raises. *)
Definition split_ticker_exchange (ticker_str : value) : result (value * string) :=
  if truthy ticker_str then
    match ticker_str with
    | VStr s =>
        if contains_dot s then
          let parts := split_dot s in
          match index parts 0, index parts 1 with
          | Ok p0, Ok p1 => Ok (VStr p0, p1)
          | Raise e, _ => Raise e
          | _, Raise e => Raise e
          end
        else Ok (ticker_str, EmptyString)
    | _ => Raise TypeError
    end
  else Ok (ticker_str, EmptyString).

(** Lines 26-29. *)
Definition nan_to_none (x : value) : value :=
  if isna x then VNone else x.

(** Reference functions for the statements about splitting: the text
    before the first dot, the text after it, and the number of dots. *)
Fixpoint before_dot (s : string) : string :=
  match s with
  | EmptyString => EmptyString
  | String c s' => if Ascii.eqb c dot then EmptyString else String c (before_dot s')
  end.

Fixpoint after_dot (s : string) : string :=
  match s with
  | EmptyString => EmptyString
  | String c s' => if Ascii.eqb c dot then s' else after_dot s'
  end.

Fixpoint count_dots (s : string) : nat :=
  match s with
  | EmptyString => 0
  | String c s' => (if Ascii.eqb c dot then 1 else 0) + count_dots s'
  end.

(** ** Library functions *)

(** The functions of Python and pandas that the script calls on a trade:
    [s.upper()] on a string, [pd.to_datetime(x, dayfirst=b)] and
    [t.strftime(format)] on the [Timestamp] it returns.  They are library
    code and are taken as they come; the last two may raise. *)
Class Library : Type := {
  Timestamp : Type;
  upper : string -> string;
  to_datetime : value -> bool -> result Timestamp;
  strftime : Timestamp -> string -> result string
}.

(** [x.upper()] on an object: only a [str] has the method. *)
Definition str_upper {library : Library} (x : value) : result string :=
  match x with
  | VStr s => Ok (upper s)
  | _ => Raise AttributeError
  end.

(** The format of line 74. *)
Definition date_format : string := "%Y-%m-%d".

(** ** Rows and records *)

(** One row of the data frame: the thirteen columns the script reads. *)
Record Row : Type := {
  Ticker : value;
  Holding : value;
  Holding_Currency : value;
  Type_ : value;
  Date : value;
  Quantity : value;
  Price : value;
  Value_GBP : value;
  Exchange_Rate : value;
  Fee : value;
  Fee_Currency : value;
  Local_Value : value;
  Currency_Pair : value
}.

(** The dictionary [stock_data] of lines 41-47. *)
Record stock_data : Type := {
  sd_ticker : value;
  sd_exchange : string;
  sd_name : value;
  sd_currency : value
}.

(** The dictionary [trade_data] of lines 71-85. *)
Record trade_data : Type := {
  td_stock_id : value;
  td_trade_type : string;
  td_trade_date : string;
  td_quantity : value;
  td_price_per_share : value;
  td_price_currency : value;
  td_gbp_value : value;
  td_fx_rate : value;
  td_fee : value;
  td_fee_currency : value;
  td_local_value : value;
  td_currency_pair : value;
  td_notes : string
}.

(** A request sent to the remote store. *)
Inductive call : Type :=
  | SelectStock (ticker : value) (exchange : string)
  | InsertStock (d : stock_data)
  | InsertTrade (d : trade_data).

(** The remote store, as the script uses it.  [select_stock] is
    [table('stocks').select('id').eq('ticker', t).eq('exchange', e).execute()]
    and answers with the identifiers found in [res.data]; [insert_stock]
    answers with the identifiers of [insert_res.data]; any request may
    raise. *)
Class Remote (Store : Type) : Type := {
  select_stock : value -> string -> Store -> Store * result (list value);
  insert_stock : stock_data -> Store -> Store * result (list value);
  insert_trade : trade_data -> Store -> Store * result unit
}.

(** The state of a run: the remote store, the requests issued so far and
    the dictionary [stocks] of line 32. *)
Record state (Store : Type) : Type := {
  remote : Store;
  log : list call;
  stocks : gmap (value * string) value
}.
Arguments remote {Store} s.
Arguments log {Store} s.
Arguments stocks {Store} s.

(** The key a stock insertion is made for. *)
Definition sd_key (d : stock_data) : value * string := (sd_ticker d, sd_exchange d).

Definition is_insert_for (k : value * string) (c : call) : bool :=
  match c with
  | InsertStock d => bool_decide (sd_key d = k)
  | _ => false
  end.

Definition is_select_for (k : value * string) (c : call) : bool :=
  match c with
  | SelectStock t e => bool_decide ((t, e) = k)
  | _ => false
  end.

Definition is_insert_trade (c : call) : bool :=
  match c with
  | InsertTrade _ => true
  | _ => false
  end.

Definition count_calls (p : call -> bool) (l : list call) : nat :=
  length (List.filter p l).

(** A cell of a text column: a string, or [None] where the file has
    nothing. *)
Definition text_cell (x : value) : bool :=
  match x with
  | VNone | VStr _ => true
  | _ => false
  end.

(** The required-field test of the stock pass (line 36), on the values
    the pass computes: [Some key] when the row passes it. *)
Definition stock_key (row : Row) : option (value * string) :=
  match split_ticker_exchange (Ticker row) with
  | Ok (ticker, exchange) =>
      if truthy ticker && truthy (nan_to_none (Holding row))
      then Some (ticker, exchange) else None
  | Raise _ => None
  end.

(** The required-field test of the trade pass (line 64). *)
Definition trade_key (row : Row) : option (value * string) :=
  match split_ticker_exchange (Ticker row) with
  | Ok (ticker, exchange) =>
      if truthy ticker && truthy (nan_to_none (Holding row))
         && truthy (nan_to_none (Type_ row))
         && truthy (nan_to_none (Date row))
         && truthy (nan_to_none (Quantity row))
      then Some (ticker, exchange) else None
  | Raise _ => None
  end.

Definition mk_stock_data (row : Row) (ticker : value) (exchange : string) : stock_data :=
  {| sd_ticker := ticker;
     sd_exchange := exchange;
     sd_name := nan_to_none (Holding row);
     sd_currency := nan_to_none (Holding_Currency row) |}.

Definition mk_trade_data (row : Row) (stock_id : value) (trade_type trade_date : string)
  : trade_data :=
  {| td_stock_id := stock_id;
     td_trade_type := trade_type;
     td_trade_date := trade_date;
     td_quantity := nan_to_none (Quantity row);
     td_price_per_share := nan_to_none (Price row);
     td_price_currency := nan_to_none (Holding_Currency row);
     td_gbp_value := nan_to_none (Value_GBP row);
     td_fx_rate := nan_to_none (Exchange_Rate row);
     td_fee := nan_to_none (Fee row);
     td_fee_currency := nan_to_none (Fee_Currency row);
     td_local_value := nan_to_none (Local_Value row);
     td_currency_pair := nan_to_none (Currency_Pair row);
     td_notes := EmptyString |}.

(** ** The script *)

Section Script.

Context {Store : Type} `{!Remote Store} {library : Library}.


(** Computations of the script: they read and change the state and may
    raise; what was done before an exception stays done. *)
Definition M (A : Type) : Type := state Store -> state Store * result A.

Definition ret {A : Type} (a : A) : M A := fun st => (st, Ok a).

Definition lift {A : Type} (r : result A) : M A := fun st => (st, r).

Definition bind {A B : Type} (m : M A) (k : A -> M B) : M B :=
  fun st =>
    match m st with
    | (st', Ok a) => k a st'
    | (st', Raise e) => (st', Raise e)
    end.

Notation "'let*' x ':=' m 'in' k" := (bind m (fun x => k))
  (at level 10, x pattern, m at level 100, k at level 200).

(** [key in stocks] *)
Definition key_in_stocks (key : value * string) : M bool :=
  fun st => (st, Ok (bool_decide (is_Some (stocks st !! key)))).

(** [stocks.get(key)] *)
Definition stocks_get (key : value * string) : M value :=
  fun st => (st, Ok (default VNone (stocks st !! key))).

(** [stocks[key] = stock_id] *)
Definition stocks_set (key : value * string) (stock_id : value) : M unit :=
  fun st =>
    ({| remote := remote st; log := log st; stocks := <[key := stock_id]> (stocks st) |},
     Ok tt).

Definition do_select (ticker : value) (exchange : string) : M (list value) :=
  fun st =>
    let '(s, r) := select_stock ticker exchange (remote st) in
    ({| remote := s; log := log st ++ [SelectStock ticker exchange]; stocks := stocks st |}, r).

Definition do_insert_stock (d : stock_data) : M (list value) :=
  fun st =>
    let '(s, r) := insert_stock d (remote st) in
    ({| remote := s; log := log st ++ [InsertStock d]; stocks := stocks st |}, r).

Definition do_insert_trade (d : trade_data) : M unit :=
  fun st =>
    let '(s, r) := insert_trade d (remote st) in
    ({| remote := s; log := log st ++ [InsertTrade d]; stocks := stocks st |}, r).

(** [for _, row in df.iterrows(): body] *)
Fixpoint for_each {A : Type} (body : A -> M unit) (df : list A) : M unit :=
  match df with
  | [] => ret tt
  | row :: rest => let* _ := body row in for_each body rest
  end.

(** Lines 34-55: the body of the stock loop. *)
Definition stocks_body (row : Row) : M unit :=
  let* (ticker, exchange) := lift (split_ticker_exchange (Ticker row)) in
  let name := nan_to_none (Holding row) in
  if negb (truthy ticker) || negb (truthy name) then ret tt
  else
    let key := (ticker, exchange) in
    let* known := key_in_stocks key in
    if negb known then
      let stock_data := mk_stock_data row ticker exchange in
      let* res := do_select ticker exchange in
      let* stock_id :=
        match res with
        | [] => let* insert_res := do_insert_stock stock_data in lift (index insert_res 0)
        | _ :: _ => lift (index res 0)
        end in
      stocks_set key stock_id
    else ret tt.

(** Lines 59-86: the body of the trade loop. *)
Definition trades_body (row : Row) : M unit :=
  let* (ticker, exchange) := lift (split_ticker_exchange (Ticker row)) in
  let name := nan_to_none (Holding row) in
  let trade_type := nan_to_none (Type_ row) in
  let trade_date := nan_to_none (Date row) in
  let quantity := nan_to_none (Quantity row) in
  if negb (truthy ticker) || negb (truthy name) || negb (truthy trade_type)
     || negb (truthy trade_date) || negb (truthy quantity)
  then ret tt
  else
    let key := (ticker, exchange) in
    let* stock_id := stocks_get key in
    if negb (truthy stock_id) then ret tt
    else
      let* upper_type := lift (str_upper trade_type) in
      let* parsed := lift (to_datetime trade_date true) in
      let* printed := lift (strftime parsed date_format) in
      do_insert_trade (mk_trade_data row stock_id upper_type printed).

Definition stocks_loop (df : list Row) : M unit := for_each stocks_body df.

Definition trades_loop (df : list Row) : M unit := for_each trades_body df.

(** Lines 31-86: both passes over the same frame, from an empty [stocks]. *)
Definition import (df : list Row) : M unit :=
  let* _ := stocks_loop df in trades_loop df.

Definition init (s : Store) : state Store :=
  {| remote := s; log := []; stocks := ∅ |}.

(** The invariant of the stock loop: a key that is not in [stocks] has
    had no request, and no key has had more than one lookup or more than
    one insertion. *)
Definition once_per_key (st : state Store) : Prop :=
  forall k,
    count_calls (is_insert_for k) (log st) <= 1
    /\ count_calls (is_select_for k) (log st) <= 1.

Definition stocks_inv (st : state Store) : Prop :=
  once_per_key st
  /\ forall k, stocks st !! k = None ->
       count_calls (is_insert_for k) (log st) = 0
       /\ count_calls (is_select_for k) (log st) = 0.

End Script.

(** ** A store and a parser to run the script on examples *)

(** An in-memory store: the rows of [stocks] with their identifiers, the
    rows of [trades], and the next identifier to hand out. *)
Record MemStore : Type := {
  ms_stocks : list (value * stock_data);
  ms_trades : list trade_data;
  ms_next : Z
}.

Definition mem_select (ticker : value) (exchange : string) (s : MemStore)
  : MemStore * result (list value) :=
  (s, Ok (map fst (List.filter (fun r => bool_decide (sd_key (snd r) = (ticker, exchange)))
                               (ms_stocks s)))).

Definition mem_insert_stock (d : stock_data) (s : MemStore)
  : MemStore * result (list value) :=
  let id := VNum (QArith_base.Qmake (ms_next s) 1) in
  ({| ms_stocks := ms_stocks s ++ [(id, d)];
      ms_trades := ms_trades s;
      ms_next := (ms_next s + 1)%Z |}, Ok [id]).

Definition mem_insert_trade (d : trade_data) (s : MemStore) : MemStore * result unit :=
  ({| ms_stocks := ms_stocks s; ms_trades := ms_trades s ++ [d]; ms_next := ms_next s |},
   Ok tt).

#[global] Instance mem_remote : Remote MemStore :=
  {| select_stock := mem_select;
     insert_stock := mem_insert_stock;
     insert_trade := mem_insert_trade |}.

(** An empty store whose first identifier is [first_id]. *)
Definition mem_empty (first_id : Z) : MemStore :=
  {| ms_stocks := []; ms_trades := []; ms_next := first_id |}.

(** Stand-ins for the library, to run the script on examples: upper case
    of ASCII letters, calendar dates, a parser for the ten-character
    numeric dates [12/34/5678] (with [dayfirst] the first field is the
    day) and a printer for the format of line 74, defined on four-digit
    years.  They stand for [str.upper], [pd.to_datetime] and [strftime]
    on such inputs only. *)
Definition ascii_upper_char (c : ascii) : ascii :=
  let n := nat_of_ascii c in
  if Nat.leb 97 n && Nat.leb n 122 then ascii_of_nat (n - 32) else c.

Fixpoint ascii_upper (s : string) : string :=
  match s with
  | EmptyString => EmptyString
  | String c s' => String (ascii_upper_char c) (ascii_upper s')
  end.

Record calendar_date : Type := { cd_year : nat; cd_month : nat; cd_day : nat }.

Definition digit_val (c : ascii) : option nat :=
  let n := nat_of_ascii c in
  if Nat.leb 48 n && Nat.leb n 57 then Some (n - 48) else None.

Definition parse_numeric_date (x : value) (dayfirst : bool) : result calendar_date :=
  match x with
  | VStr (String a (String b (String sep1 (String c (String d (String sep2
       (String e (String f (String g (String h EmptyString)))))))))) =>
      match digit_val a, digit_val b, digit_val c, digit_val d,
            digit_val e, digit_val f, digit_val g, digit_val h with
      | Some a, Some b, Some c, Some d, Some e, Some f, Some g, Some h =>
          if Ascii.eqb sep1 "/" && Ascii.eqb sep2 "/" then
            let first := 10 * a + b in
            let second := 10 * c + d in
            Ok {| cd_year := 1000 * e + 100 * f + 10 * g + h;
                  cd_month := if dayfirst then second else first;
                  cd_day := if dayfirst then first else second |}
          else Raise ValueError
      | _, _, _, _, _, _, _, _ => Raise ValueError
      end
  | _ => Raise ValueError
  end.

Definition digit (n : nat) : ascii := ascii_of_nat (48 + n mod 10).

Definition pad2 (n : nat) : string :=
  String (digit (n / 10)) (String (digit n) EmptyString).

Definition pad4 (n : nat) : string :=
  String (digit (n / 1000)) (String (digit (n / 100)) (pad2 n)).

Definition print_date (t : calendar_date) (format : string) : result string :=
  if String.eqb format date_format
     && Nat.leb 1 (cd_year t / 1000) && Nat.leb (cd_year t / 1000) 9
     && Nat.leb 1 (cd_month t) && Nat.leb (cd_month t) 12
     && Nat.leb 1 (cd_day t) && Nat.leb (cd_day t) 31
  then Ok (pad4 (cd_year t) ++ "-" ++ pad2 (cd_month t) ++ "-" ++ pad2 (cd_day t))
  else Raise ValueError.

#[global] Instance sample_library : Library :=
  {| Timestamp := calendar_date;
     upper := ascii_upper;
     to_datetime := parse_numeric_date;
     strftime := print_date |}.

Definition text (s : string) : value := VStr s.

Definition number (n : Z) : value := VNum (QArith_base.Qmake n 1).

(** A row with the given ticker, holding, currency, type, date and
    quantity; the other columns are empty. *)
Definition mk_row (ticker holding currency type date quantity : value) : Row :=
  {| Ticker := ticker; Holding := holding; Holding_Currency := currency;
     Type_ := type; Date := date; Quantity := quantity;
     Price := VNaN; Value_GBP := VNaN; Exchange_Rate := VNaN; Fee := VNaN;
     Fee_Currency := VNone; Local_Value := VNaN; Currency_Pair := VNone |}.

Definition row_ogzd : Row :=
  mk_row (text "OGZD.LSE") (text "Gazprom") (text "USD") (text "buy")
         (text "05/03/2020") (number 10).

(** The same stock under another name and currency. *)
Definition row_ogzd_again : Row :=
  mk_row (text "OGZD.LSE") (text "Gazprom PJSC") (text "GBP") (text "sell")
         (text "17/04/2020") (number 4).

Definition row_cash : Row :=
  mk_row (text "CASH") (text "Cash GBP") (text "GBP") (text "deposit")
         (text "01/01/2021") (number 100).




Definition row_zero_quantity : Row :=
  mk_row (text "OGZD.LSE") (text "Gazprom") (text "USD") (text "buy")
         (text "05/03/2020") (number 0).

Definition sample_frame : list Row := [row_ogzd; row_cash; row_ogzd_again].

Definition ogzd_key : value * string := (VStr "OGZD", "LSE").

(** The run of the script on [sample_frame], against an empty store whose
    identifiers start at 1, and the state between its two passes. *)
Definition sample_run : state MemStore * result unit :=
  import sample_frame (init (mem_empty 1)).

Definition sample_after_stocks : state MemStore :=
  (stocks_loop sample_frame (init (mem_empty 1))).1.

(** ** Reading a log *)

(** The trade records a log sends, in order. *)
Definition trades_in (l : list call) : list trade_data :=
  omap (fun c => match c with InsertTrade d => Some d | _ => None end) l.

Definition is_stock_request (c : call) : bool := negb (is_insert_trade c).

(** In a log, every stock insertion comes right after the lookup of its
    key. *)
Definition select_before_insert (l : list call) : Prop :=
  forall n d, l !! n = Some (InsertStock d) ->
    exists m, n = S m /\ l !! m = Some (SelectStock (sd_ticker d) (sd_exchange d)).

(** The record that lines 59-85 send for a row when [stocks] is [m]:
    none when line 64 or line 69 skips the row, or when a conversion
    raises. *)
Definition trade_of {library : Library} (m : gmap (value * string) value) (row : Row)
  : option trade_data :=
  match trade_key row with
  | Some k =>
      let stock_id := default VNone (m !! k) in
      if truthy stock_id then
        match str_upper (nan_to_none (Type_ row)),
              to_datetime (nan_to_none (Date row)) true with
        | Ok u, Ok ts =>
            match strftime ts date_format with
            | Ok printed => Some (mk_trade_data row stock_id u printed)
            | Raise _ => None
            end
        | _, _ => None
        end
      else None
  | None => None
  end.

Definition passes_trade_test (row : Row) : bool :=
  bool_decide (is_Some (trade_key row)).

(** ** More stores and rows for examples *)

(** A store that cannot be reached: every request raises. *)
Inductive Offline : Type := offline.

#[global] Instance offline_remote : Remote Offline :=
  {| select_stock := fun _ _ s => (s, Raise APIError);
     insert_stock := fun _ s => (s, Raise APIError);
     insert_trade := fun _ s => (s, Raise APIError) |}.

(** A store that finds nothing and answers an insertion with no row. *)
Inductive Silent : Type := silent.

#[global] Instance silent_remote : Remote Silent :=
  {| select_stock := fun _ _ s => (s, Ok []);
     insert_stock := fun _ s => (s, Ok []);
     insert_trade := fun _ s => (s, Ok tt) |}.

(** A store that already holds the stock of [row_ogzd], under 7. *)
Definition mem_with_ogzd : MemStore :=
  {| ms_stocks := [(number 7, mk_stock_data row_ogzd (VStr "OGZD") "LSE")];
     ms_trades := [];
     ms_next := 8 |}.

Definition row_no_quantity : Row :=
  mk_row (text "OGZD.LSE") (text "Gazprom") (text "USD") (text "buy")
         (text "05/03/2020") VNaN.

Definition row_bad_date : Row :=
  mk_row (text "CASH") (text "Cash GBP") (text "GBP") (text "deposit")
         (text "soon") (number 100).

Definition row_numeric_type : Row :=
  mk_row (text "CASH") (text "Cash GBP") (text "GBP") (number 3)
         (text "01/01/2021") (number 100).

(** * Properties *)

(** ** Splitting a ticker *)

Lemma split_dot_unfold (s : string) :
  split_dot s =
  before_dot s :: (if contains_dot s then split_dot (after_dot s) else []).
Proof.
  induction s as [| c s IH]; simpl; [reflexivity |].
  destruct (Ascii.eqb c dot); [reflexivity |].
  rewrite IH. reflexivity.
Qed.

Lemma contains_dot_count (s : string) :
  contains_dot s = true <-> 0 < count_dots s.
Proof.
  induction s as [| c s IH]; simpl.
  - split; [discriminate | lia].
  - destruct (Ascii.eqb c dot); simpl; [split; [lia | reflexivity] | exact IH].
Qed.

Lemma count_dots_after (s : string) :
  contains_dot s = true -> count_dots s = S (count_dots (after_dot s)).
Proof.
  induction s as [| c s IH]; simpl; [discriminate |].
  destruct (Ascii.eqb c dot); simpl; [reflexivity | exact IH].
Qed.

Lemma before_dot_no_dot (s : string) :
  contains_dot s = false -> before_dot s = s.
Proof.
  induction s as [| c s IH]; simpl; [reflexivity |].
  destruct (Ascii.eqb c dot); [discriminate |].
  intros H. rewrite (IH H). reflexivity.
Qed.

Lemma before_after_dot (s : string) :
  contains_dot s = true -> before_dot s ++ "." ++ after_dot s = s.
Proof.
  induction s as [| c s IH]; simpl; [discriminate |].
  destruct (Ascii.eqb c dot) eqn:E.
  - apply Ascii.eqb_eq in E. subst c. reflexivity.
  - intros H. change (String c (before_dot s ++ "." ++ after_dot s) = String c s).
    f_equal. exact (IH H).
Qed.

Lemma contains_dot_nonempty (s : string) :
  contains_dot s = true -> truthy (VStr s) = true.
Proof. destruct s; [discriminate | reflexivity]. Qed.

Lemma split_with_dot (s : string) :
  contains_dot s = true ->
  split_ticker_exchange (VStr s) = Ok (VStr (before_dot s), before_dot (after_dot s)).
Proof.
  intros H. unfold split_ticker_exchange.
  rewrite (contains_dot_nonempty s H), H.
  rewrite split_dot_unfold, H.
  rewrite (split_dot_unfold (after_dot s)). reflexivity.
Qed.

Lemma split_without_dot (s : string) :
  contains_dot s = false -> split_ticker_exchange (VStr s) = Ok (VStr s, EmptyString).
Proof.
  intros H. unfold split_ticker_exchange. rewrite H.
  destruct (truthy (VStr s)); reflexivity.
Qed.

Lemma before_dot_fixed (s : string) :
  before_dot s = s <-> contains_dot s = false.
Proof.
  split; [| apply before_dot_no_dot].
  induction s as [| c s IH]; simpl; [reflexivity |].
  destruct (Ascii.eqb c dot); [discriminate |].
  intros H. injection H as H. exact (IH H).
Qed.

(** C4, as amended.  For a ticker string with at least one dot,
    [split_ticker_exchange] returns as ticker the text before the first
    dot and as exchange the text between the first dot and the next one
    (the end of the string when there is no other dot); the exchange is
    the whole text after the first dot exactly when that text has no
    dot. *)
Theorem split_ticker_exchange_first_two_parts (s : string) :
  contains_dot s = true ->
  split_ticker_exchange (VStr s) = Ok (VStr (before_dot s), before_dot (after_dot s))
  /\ (before_dot (after_dot s) = after_dot s <-> contains_dot (after_dot s) = false).
Proof.
  intros H. split; [exact (split_with_dot s H) | apply before_dot_fixed].
Qed.

Lemma split_ticker_exchange_first_two_parts_witness :
  contains_dot "OGZD.LSE" = true
  /\ split_ticker_exchange (VStr "OGZD.LSE") = Ok (VStr "OGZD", "LSE").
Proof.
  split; [reflexivity |].
  exact (proj1 (split_ticker_exchange_first_two_parts "OGZD.LSE" eq_refl)).
Defined.

(** C4, as stated, fails on a ticker with two dots: the exchange returned
    for [A.B.C] is [B], not the whole text [B.C] after the first dot. *)
Lemma split_ticker_exchange_drops_third_part :
  contains_dot "A.B.C" = true
  /\ split_ticker_exchange (VStr "A.B.C") = Ok (VStr "A", "B")
  /\ after_dot "A.B.C" = "B.C"
  /\ split_ticker_exchange (VStr "A.B.C")
     <> Ok (VStr (before_dot "A.B.C"), after_dot "A.B.C").
Proof. repeat split; discriminate. Qed.

(** C5.  For a ticker string with exactly one dot, [split_ticker_exchange]
    returns a pair (prefix, suffix) with prefix + "." + suffix equal to
    the string. *)
Theorem split_ticker_exchange_one_dot (s : string) :
  count_dots s = 1 ->
  exists prefix suffix : string,
    split_ticker_exchange (VStr s) = Ok (VStr prefix, suffix)
    /\ prefix ++ "." ++ suffix = s.
Proof.
  intros H.
  assert (Hdot : contains_dot s = true) by (apply contains_dot_count; lia).
  assert (Hrest : contains_dot (after_dot s) = false).
  { pose proof (count_dots_after s Hdot) as Hc.
    destruct (contains_dot (after_dot s)) eqn:E; [| reflexivity].
    apply contains_dot_count in E. lia. }
  exists (before_dot s), (after_dot s). split.
  - rewrite (split_with_dot s Hdot), (before_dot_no_dot _ Hrest). reflexivity.
  - exact (before_after_dot s Hdot).
Qed.

Lemma split_ticker_exchange_one_dot_witness :
  count_dots "OGZD.LSE" = 1
  /\ exists prefix suffix : string,
       split_ticker_exchange (VStr "OGZD.LSE") = Ok (VStr prefix, suffix)
       /\ prefix ++ "." ++ suffix = "OGZD.LSE".
Proof.
  split; [reflexivity |].
  exact (split_ticker_exchange_one_dot "OGZD.LSE" eq_refl).
Defined.

(** C6.  For a ticker string with no dot, [split_ticker_exchange] returns
    the string itself as ticker and the empty string as exchange. *)
Theorem split_ticker_exchange_no_dot (s : string) :
  contains_dot s = false ->
  split_ticker_exchange (VStr s) = Ok (VStr s, EmptyString).
Proof. exact (split_without_dot s). Qed.

Lemma split_ticker_exchange_no_dot_witness :
  contains_dot "CASH" = false
  /\ split_ticker_exchange (VStr "CASH") = Ok (VStr "CASH", EmptyString).
Proof.
  split; [reflexivity |].
  exact (split_ticker_exchange_no_dot "CASH" eq_refl).
Defined.

(** ** The two passes *)

Local Open Scope list_scope.

Section Properties.

Context {Store : Type} `{!Remote Store} {library : Library}.

Implicit Types (st : state Store) (row : Row) (k : value * string).

(** *** The required-field tests *)

Lemma truthy_nan_to_none (x : value) :
  truthy (nan_to_none x) = truthy x && negb (isna x).
Proof. destruct x; simpl; rewrite ?andb_true_r; reflexivity. Qed.

Lemma split_falsy (x : value) :
  truthy x = false -> split_ticker_exchange x = Ok (x, EmptyString).
Proof. intros H. unfold split_ticker_exchange. rewrite H. reflexivity. Qed.

Lemma split_text_cell (x : value) :
  text_cell x = true -> exists t e, split_ticker_exchange x = Ok (t, e).
Proof.
  destruct x as [| | s | q]; try discriminate; intros _.
  - exists VNone, EmptyString. reflexivity.
  - destruct (contains_dot s) eqn:E.
    + eexists _, _. apply (split_with_dot s E).
    + eexists _, _. apply (split_without_dot s E).
Qed.


Lemma trade_key_stock_key row k :
  trade_key row = Some k -> stock_key row = Some k.
Proof.
  unfold trade_key, stock_key.
  destruct (split_ticker_exchange (Ticker row)) as [[t e] | err]; [| discriminate].
  destruct (truthy t), (truthy (nan_to_none (Holding row))); simpl; try discriminate.
  destruct (truthy (nan_to_none (Type_ row)) && truthy (nan_to_none (Date row))
            && truthy (nan_to_none (Quantity row))); [trivial | discriminate].
Qed.

(** *** One step of the stock loop *)

Lemma stocks_body_raise row st (e : exn) :
  split_ticker_exchange (Ticker row) = Raise e ->
  stocks_body row st = (st, Raise e).
Proof. intros H. unfold stocks_body, bind, lift. rewrite H. reflexivity. Qed.

Lemma stocks_body_skip row st (t : value) (e : string) :
  split_ticker_exchange (Ticker row) = Ok (t, e) ->
  truthy t && truthy (nan_to_none (Holding row)) = false ->
  stocks_body row st = (st, Ok tt).
Proof.
  intros H Hc. unfold stocks_body, bind, lift. rewrite H.
  destruct (truthy t), (truthy (nan_to_none (Holding row))); try discriminate; reflexivity.
Qed.

Lemma stocks_body_no_key row st :
  stock_key row = None -> (stocks_body row st).1 = st.
Proof.
  unfold stock_key.
  destruct (split_ticker_exchange (Ticker row)) as [[t e] | err] eqn:E.
  - destruct (truthy t && truthy (nan_to_none (Holding row))) eqn:Hc; [discriminate |].
    intros _. rewrite (stocks_body_skip row st t e E Hc). reflexivity.
  - intros _. rewrite (stocks_body_raise row st err E). reflexivity.
Qed.

Lemma stock_key_split row k :
  stock_key row = Some k ->
  split_ticker_exchange (Ticker row) = Ok k
  /\ truthy k.1 = true /\ truthy (nan_to_none (Holding row)) = true.
Proof.
  unfold stock_key.
  destruct (split_ticker_exchange (Ticker row)) as [[t e] | err]; [| discriminate].
  destruct (truthy t) eqn:Ht, (truthy (nan_to_none (Holding row))) eqn:Hn;
    simpl; try discriminate.
  intros [= <-]. auto.
Qed.

Lemma stocks_body_hit row st k :
  stock_key row = Some k -> is_Some (stocks st !! k) ->
  stocks_body row st = (st, Ok tt).
Proof.
  intros Hk Hin. destruct (stock_key_split row k Hk) as (Hs & Ht & Hn).
  destruct k as [t e]. simpl in Ht.
  unfold stocks_body, bind, lift, key_in_stocks. rewrite Hs, Ht, Hn. simpl.
  rewrite bool_decide_eq_true_2 by exact Hin. reflexivity.
Qed.

(** What a miss does: one lookup request, then at most one insertion,
    built from this row; the key enters [stocks] unless a request or an
    indexing raises. *)
Lemma stocks_body_miss row st k :
  stock_key row = Some k -> stocks st !! k = None ->
  exists new : list call,
    log (stocks_body row st).1 = log st ++ SelectStock k.1 k.2 :: new
    /\ (new = [] \/ new = [InsertStock (mk_stock_data row k.1 k.2)])
    /\ match (stocks_body row st).2 with
       | Ok _ => exists id, stocks (stocks_body row st).1 = <[k := id]> (stocks st)
       | Raise _ => stocks (stocks_body row st).1 = stocks st
       end.
Proof.
  intros Hk Hout. destruct (stock_key_split row k Hk) as (Hs & Ht & Hn).
  destruct k as [t e]. simpl in Ht. simpl.
  unfold stocks_body, bind, lift, key_in_stocks. rewrite Hs, Ht, Hn. simpl.
  rewrite bool_decide_eq_false_2 by (rewrite Hout; apply is_Some_None). simpl.
  unfold do_select.
  destruct (select_stock t e (remote st)) as [s1 [ids | err]]; simpl.
  - destruct ids as [| id ids]; simpl.
    + unfold do_insert_stock; simpl.
      destruct (insert_stock (mk_stock_data row t e) s1) as [s2 [ids2 | err2]]; simpl.
      * destruct ids2 as [| id2 ids2]; simpl.
        -- exists [InsertStock (mk_stock_data row t e)]. rewrite <- app_assoc. simpl. auto.
        -- exists [InsertStock (mk_stock_data row t e)]. rewrite <- app_assoc. simpl.
           split; [reflexivity |]. split; [auto |]. exists id2. reflexivity.
      * exists [InsertStock (mk_stock_data row t e)]. rewrite <- app_assoc. simpl. auto.
    + exists []. split; [reflexivity |]. split; [auto |]. exists id. reflexivity.
  - exists []. auto.
Qed.

(** *** Loops *)

Lemma for_each_app {A : Type} (body : A -> M unit) (l1 l2 : list A) st :
  for_each body (l1 ++ l2) st =
  match for_each body l1 st with
  | (st', Ok _) => for_each body l2 st'
  | (st', Raise e) => (st', Raise e)
  end.
Proof.
  revert st. induction l1 as [| x l1 IH]; intros st; simpl; [reflexivity |].
  unfold bind. destruct (body x st) as [st' [[] | e]]; [apply IH | reflexivity].
Qed.

(** A loop keeps an invariant [I] of its body as long as no step raises;
    when a step raises, the loop stops in a state where the weaker [Q]
    holds. *)
Lemma for_each_inv {A : Type} (I Q : state Store -> Prop) (body : A -> M unit)
    (l : list A) :
  (forall st, I st -> Q st) ->
  (forall x st, x ∈ l -> I st ->
     match body x st with (st', Ok _) => I st' | (st', Raise _) => Q st' end) ->
  forall st, I st ->
    match for_each body l st with (st', Ok _) => I st' | (st', Raise _) => Q st' end.
Proof.
  intros HIQ. induction l as [| x l IH]; intros Hbody st HI; simpl; [exact HI |].
  unfold bind. pose proof (Hbody x st (list_elem_of_here x l) HI) as Hx.
  destruct (body x st) as [st' [[] | e]]; [| exact Hx].
  apply IH; [| exact Hx].
  intros y st0 Hy. apply Hbody. apply list_elem_of_further, Hy.
Qed.

Lemma for_each_prefix_ok {A : Type} (body : A -> M unit) (l1 l2 : list A) st st' :
  for_each body (l1 ++ l2) st = (st', Ok tt) ->
  exists st1, for_each body l1 st = (st1, Ok tt) /\ for_each body l2 st1 = (st', Ok tt).
Proof.
  rewrite for_each_app. destruct (for_each body l1 st) as [st1 [[] | e]]; [| discriminate].
  intros H. exists st1. auto.
Qed.

(** *** Counting requests *)

Lemma count_calls_app (p : call -> bool) (l1 l2 : list call) :
  count_calls p (l1 ++ l2) = count_calls p l1 + count_calls p l2.
Proof. unfold count_calls. rewrite List.filter_app, length_app. reflexivity. Qed.

Lemma count_insert_miss row k0 k (new : list call) :
  new = [] \/ new = [InsertStock (mk_stock_data row k0.1 k0.2)] ->
  count_calls (is_insert_for k) (SelectStock k0.1 k0.2 :: new)
  = (if bool_decide (k0 = k) then length new else 0)
  /\ count_calls (is_select_for k) (SelectStock k0.1 k0.2 :: new)
  = (if bool_decide (k0 = k) then 1 else 0).
Proof.
  destruct k0 as [t e]. intros [-> | ->]; unfold count_calls; simpl;
    unfold sd_key; simpl; destruct (bool_decide ((t, e) = k)); auto.
Qed.

Lemma stocks_body_inv row st :
  stocks_inv st ->
  match stocks_body row st with
  | (st', Ok _) => stocks_inv st'
  | (st', Raise _) => once_per_key st'
  end.
Proof.
  intros [Honce Hnone].
  destruct (stock_key row) as [k0 |] eqn:Hk.
  - destruct (stocks st !! k0) as [id0 |] eqn:Hin.
    + rewrite (stocks_body_hit row st k0 Hk) by (rewrite Hin; eauto).
      split; assumption.
    + destruct (stocks_body_miss row st k0 Hk Hin) as (new & Hlog & Hnew & Hres).
      destruct (Hnone k0 Hin) as [Hi0 Hs0].
      assert (Hlen : length new <= 1) by (destruct Hnew as [-> | ->]; simpl; lia).
      assert (Hcount : forall k,
        count_calls (is_insert_for k) (log (stocks_body row st).1)
        = count_calls (is_insert_for k) (log st)
          + (if bool_decide (k0 = k) then length new else 0)
        /\ count_calls (is_select_for k) (log (stocks_body row st).1)
        = count_calls (is_select_for k) (log st)
          + (if bool_decide (k0 = k) then 1 else 0)).
      { intros k. rewrite Hlog, !count_calls_app.
        destruct (count_insert_miss row k0 k new Hnew) as [-> ->]. auto. }
      assert (Hq : once_per_key (stocks_body row st).1).
      { intros k. destruct (Hcount k) as [-> ->]. destruct (Honce k).
        case_bool_decide; [subst k; lia | lia]. }
      destruct (stocks_body row st) as [st' [[] | e]]; simpl in *; [| exact Hq].
      split; [exact Hq |]. intros k Hk'. destruct Hres as [id Hst].
      rewrite Hst in Hk'.
      destruct (decide (k0 = k)) as [-> | Hne];
        [rewrite lookup_insert_eq in Hk'; discriminate |].
      rewrite lookup_insert_ne in Hk' by exact Hne.
      destruct (Hcount k) as [-> ->]. rewrite bool_decide_eq_false_2 by exact Hne.
      destruct (Hnone k Hk'). lia.
  - pose proof (stocks_body_no_key row st Hk) as Hst.
    destruct (stocks_body row st) as [st' [[] | e]]; simpl in Hst; subst st';
      [split; assumption | exact Honce].
Qed.

Lemma stocks_loop_inv (df : list Row) st :
  stocks_inv st ->
  match stocks_loop df st with
  | (st', Ok _) => stocks_inv st'
  | (st', Raise _) => once_per_key st'
  end.
Proof.
  apply (for_each_inv stocks_inv once_per_key).
  - intros st0 [H _]. exact H.
  - intros row st0 _. apply stocks_body_inv.
Qed.

Lemma init_inv (s : Store) : stocks_inv (init s).
Proof. split; intros k; simpl; [split; apply Nat.le_0_l | auto]. Qed.

(** Entries of [stocks] are never overwritten or removed by the stock
    loop. *)
Lemma stocks_body_mono row st :
  stocks st ⊆ stocks (stocks_body row st).1.
Proof.
  destruct (stock_key row) as [k0 |] eqn:Hk.
  - destruct (stocks st !! k0) as [id0 |] eqn:Hin.
    + rewrite (stocks_body_hit row st k0 Hk) by (rewrite Hin; eauto). reflexivity.
    + destruct (stocks_body_miss row st k0 Hk Hin) as (new & _ & _ & Hres).
      destruct ((stocks_body row st).2); [| rewrite Hres; reflexivity].
      destruct Hres as [id ->]. apply insert_subseteq, Hin.
  - rewrite (stocks_body_no_key row st Hk). reflexivity.
Qed.

Lemma stocks_loop_mono (df : list Row) st :
  stocks st ⊆ stocks (stocks_loop df st).1.
Proof.
  revert st. induction df as [| row df IH]; intros st; simpl; [reflexivity |].
  unfold stocks_loop in *. simpl. unfold bind.
  pose proof (stocks_body_mono row st) as H1.
  destruct (stocks_body row st) as [st' [[] | e]]; simpl in *; [| exact H1].
  etrans; [exact H1 | apply IH].
Qed.

(** A row that passes the required-field test leaves its key in
    [stocks]. *)
Lemma stocks_body_key row st st' k :
  stock_key row = Some k -> stocks_body row st = (st', Ok tt) ->
  is_Some (stocks st' !! k).
Proof.
  intros Hk Hrun. destruct (stocks st !! k) as [id0 |] eqn:Hin.
  - rewrite (stocks_body_hit row st k Hk) in Hrun by (rewrite Hin; eauto).
    injection Hrun as <-. rewrite Hin. eauto.
  - destruct (stocks_body_miss row st k Hk Hin) as (new & _ & _ & Hres).
    rewrite Hrun in Hres. simpl in Hres. destruct Hres as [id ->].
    rewrite lookup_insert_eq. eauto.
Qed.

Lemma stocks_loop_key (df : list Row) st st' row k :
  row ∈ df -> stock_key row = Some k -> stocks_loop df st = (st', Ok tt) ->
  is_Some (stocks st' !! k).
Proof.
  intros Hin Hk Hrun. apply list_elem_of_split in Hin as (l1 & l2 & ->).
  unfold stocks_loop in Hrun.
  apply for_each_prefix_ok in Hrun as (st1 & _ & H2). simpl in H2. unfold bind in H2.
  destruct (stocks_body row st1) as [st2 [[] | e]] eqn:Hrow; [| discriminate].
  destruct (stocks_body_key row st1 st2 k Hk Hrow) as [id Hid].
  pose proof (stocks_loop_mono l2 st2) as Hmono. unfold stocks_loop in Hmono.
  rewrite H2 in Hmono. simpl in Hmono.
  exists id. exact (lookup_weaken _ _ _ _ Hid Hmono).
Qed.

(** *** One step of the trade loop *)

Lemma trade_key_split row k :
  trade_key row = Some k ->
  split_ticker_exchange (Ticker row) = Ok k
  /\ truthy k.1 = true
  /\ truthy (nan_to_none (Holding row)) = true
  /\ truthy (nan_to_none (Type_ row)) = true
  /\ truthy (nan_to_none (Date row)) = true
  /\ truthy (nan_to_none (Quantity row)) = true.
Proof.
  unfold trade_key.
  destruct (split_ticker_exchange (Ticker row)) as [[t e] | err]; [| discriminate].
  destruct (truthy t) eqn:Ht, (truthy (nan_to_none (Holding row))) eqn:Hn,
    (truthy (nan_to_none (Type_ row))) eqn:Hy, (truthy (nan_to_none (Date row))) eqn:Hd,
    (truthy (nan_to_none (Quantity row))) eqn:Hq; simpl; try discriminate.
  intros [= <-]. auto 10.
Qed.

Lemma trades_body_raise row st (e : exn) :
  split_ticker_exchange (Ticker row) = Raise e ->
  trades_body row st = (st, Raise e).
Proof. intros H. unfold trades_body, bind, lift. rewrite H. reflexivity. Qed.

Lemma trades_body_skip row st (t : value) (e : string) :
  split_ticker_exchange (Ticker row) = Ok (t, e) ->
  truthy t && truthy (nan_to_none (Holding row)) && truthy (nan_to_none (Type_ row))
    && truthy (nan_to_none (Date row)) && truthy (nan_to_none (Quantity row)) = false ->
  trades_body row st = (st, Ok tt).
Proof.
  intros H Hc. unfold trades_body, bind, lift. rewrite H.
  destruct (truthy t), (truthy (nan_to_none (Holding row))),
    (truthy (nan_to_none (Type_ row))), (truthy (nan_to_none (Date row))),
    (truthy (nan_to_none (Quantity row))); try discriminate; reflexivity.
Qed.

Lemma trades_body_no_key row st :
  trade_key row = None -> (trades_body row st).1 = st.
Proof.
  unfold trade_key.
  destruct (split_ticker_exchange (Ticker row)) as [[t e] | err] eqn:E.
  - destruct (truthy t && truthy (nan_to_none (Holding row))
              && truthy (nan_to_none (Type_ row)) && truthy (nan_to_none (Date row))
              && truthy (nan_to_none (Quantity row))) eqn:Hc; [discriminate |].
    intros _. rewrite (trades_body_skip row st t e E Hc). reflexivity.
  - intros _. rewrite (trades_body_raise row st err E). reflexivity.
Qed.

(** Past the required-field test, the step is the lookup, the three
    conversions and the insertion. *)
Lemma trades_body_key row st k :
  trade_key row = Some k ->
  trades_body row st =
  let stock_id := default VNone (stocks st !! k) in
  if truthy stock_id then
    match str_upper (nan_to_none (Type_ row)) with
    | Ok upper_type =>
        match to_datetime (nan_to_none (Date row)) true with
        | Ok parsed =>
            match strftime parsed date_format with
            | Ok printed =>
                do_insert_trade (mk_trade_data row stock_id upper_type printed) st
            | Raise e => (st, Raise e)
            end
        | Raise e => (st, Raise e)
        end
    | Raise e => (st, Raise e)
    end
  else (st, Ok tt).
Proof.
  intros Hk. destruct (trade_key_split row k Hk) as (Hs & Ht & Hn & Hy & Hd & Hq).
  destruct k as [t e]. simpl in Ht.
  unfold trades_body, bind, lift, stocks_get. rewrite Hs, Ht, Hn, Hy, Hd, Hq. simpl.
  destruct (truthy (default VNone (stocks st !! (t, e)))); simpl; [| reflexivity].
  destruct (str_upper (nan_to_none (Type_ row))); simpl; [| reflexivity].
  destruct (to_datetime (nan_to_none (Date row)) true) as [ts | e2]; simpl;
    [| reflexivity].
  destruct (strftime ts date_format); reflexivity.
Qed.

(** Every outcome of a trade step: nothing changes, or one insertion is
    sent for a row that passed the test and whose stock was found. *)
Lemma trades_body_cases row st :
  (trades_body row st).1 = st
  \/ exists k id u ts printed,
       trade_key row = Some k
       /\ stocks st !! k = Some id /\ truthy id = true
       /\ str_upper (nan_to_none (Type_ row)) = Ok u
       /\ to_datetime (nan_to_none (Date row)) true = Ok ts
       /\ strftime ts date_format = Ok printed
       /\ log (trades_body row st).1
          = log st ++ [InsertTrade (mk_trade_data row id u printed)]
       /\ stocks (trades_body row st).1 = stocks st.
Proof.
  destruct (trade_key row) as [k |] eqn:Hk;
    [| left; apply trades_body_no_key, Hk].
  rewrite (trades_body_key row st k Hk). simpl.
  destruct (stocks st !! k) as [id |] eqn:Hin; simpl; [| left; reflexivity].
  destruct (truthy id) eqn:Hid; [| left; reflexivity].
  destruct (str_upper (nan_to_none (Type_ row))) as [u | e1] eqn:Hu; [| left; reflexivity].
  destruct (to_datetime (nan_to_none (Date row)) true) as [ts | e2] eqn:Hts;
    [| left; reflexivity].
  destruct (strftime ts date_format) as [printed | e3] eqn:Hpr; [| left; reflexivity].
  right. exists k, id, u, ts, printed. unfold do_insert_trade.
  destruct (insert_trade _ (remote st)) as [s1 r]. simpl. auto 10.
Qed.

Lemma trades_body_stocks row st :
  stocks (trades_body row st).1 = stocks st.
Proof.
  destruct (trades_body_cases row st) as [-> | (k & id & u & ts & printed & H)];
    [reflexivity | apply H].
Qed.

Lemma trades_loop_stocks (df : list Row) st :
  stocks (trades_loop df st).1 = stocks st.
Proof.
  revert st. induction df as [| row df IH]; intros st; [reflexivity |].
  unfold trades_loop in *. simpl. unfold bind.
  pose proof (trades_body_stocks row st) as H1.
  destruct (trades_body row st) as [st' [[] | e]]; simpl in *; [| exact H1].
  rewrite IH. exact H1.
Qed.

(** *** What the passes write to the log *)

Lemma stocks_body_log row st (c : call) :
  c ∈ log (stocks_body row st).1 ->
  c ∈ log st
  \/ exists k, stock_key row = Some k /\ stocks st !! k = None
       /\ (c = SelectStock k.1 k.2 \/ c = InsertStock (mk_stock_data row k.1 k.2)).
Proof.
  destruct (stock_key row) as [k0 |] eqn:Hk.
  - destruct (stocks st !! k0) as [id0 |] eqn:Hin.
    + rewrite (stocks_body_hit row st k0 Hk) by (rewrite Hin; eauto). auto.
    + destruct (stocks_body_miss row st k0 Hk Hin) as (new & -> & Hnew & _).
      rewrite elem_of_app, elem_of_cons. intros [H | [-> | H]]; [auto | eauto 6 |].
      destruct Hnew as [-> | ->]; [inversion H |].
      apply list_elem_of_singleton in H as ->. eauto 6.
  - rewrite (stocks_body_no_key row st Hk). auto.
Qed.

Lemma trades_body_log row st (c : call) :
  c ∈ log (trades_body row st).1 ->
  c ∈ log st
  \/ exists k id u ts printed,
       trade_key row = Some k /\ stocks st !! k = Some id
       /\ strftime ts date_format = Ok printed
       /\ c = InsertTrade (mk_trade_data row id u printed).
Proof.
  destruct (trades_body_cases row st)
    as [-> | (k & id & u & ts & printed & Hk & Hin & _ & _ & _ & Hpr & -> & _)];
    [auto |].
  rewrite elem_of_app. intros [H | H]; [auto |].
  apply list_elem_of_singleton in H as ->. right. exists k, id, u, ts, printed. auto.
Qed.

Lemma stocks_loop_log (df : list Row) st (d : trade_data) :
  InsertTrade d ∈ log (stocks_loop df st).1 -> InsertTrade d ∈ log st.
Proof.
  revert st. induction df as [| row df IH]; intros st; [simpl; auto |].
  unfold stocks_loop in *. simpl. unfold bind.
  pose proof (stocks_body_log row st (InsertTrade d)) as H1.
  assert (Hhere : InsertTrade d ∈ log (stocks_body row st).1 -> InsertTrade d ∈ log st).
  { intros H. destruct (H1 H) as [? | (k & _ & _ & [? | ?])]; [assumption | discriminate ..]. }
  destruct (stocks_body row st) as [st' [[] | e]]; simpl in *; [| exact Hhere].
  intros H. exact (Hhere (IH st' H)).
Qed.

Lemma trades_loop_log (df : list Row) st (c : call) :
  c ∈ log (trades_loop df st).1 ->
  c ∈ log st
  \/ exists row id u ts printed,
       row ∈ df /\ is_Some (trade_key row)
       /\ strftime ts date_format = Ok printed
       /\ c = InsertTrade (mk_trade_data row id u printed).
Proof.
  revert st. induction df as [| row df IH]; intros st; [simpl; auto |].
  unfold trades_loop in *. simpl. unfold bind.
  pose proof (trades_body_log row st c) as H1.
  assert (Hhere : c ∈ log (trades_body row st).1 ->
    c ∈ log st \/ exists row0 id u ts printed,
       row0 ∈ row :: df /\ is_Some (trade_key row0)
       /\ strftime ts date_format = Ok printed
       /\ c = InsertTrade (mk_trade_data row0 id u printed)).
  { intros H. destruct (H1 H) as [? | (k & id & u & ts & printed & Hk & _ & Hpr & ->)];
      [auto |].
    right. exists row, id, u, ts, printed. rewrite Hk.
    split; [apply list_elem_of_here | eauto]. }
  destruct (trades_body row st) as [st' [[] | e]]; simpl in *; [| exact Hhere].
  intros H. destruct (IH st' H) as [H' | (row0 & id & u & ts & printed & Hin & Hk & Hpr & ->)];
    [exact (Hhere H') |].
  right. exists row0, id, u, ts, printed. split; [apply list_elem_of_further, Hin | auto].
Qed.

(** The log at the end of [import], in terms of the one after the stock
    pass. *)
Lemma import_unfold (df : list Row) st :
  import df st =
  match stocks_loop df st with
  | (st1, Ok _) => trades_loop df st1
  | (st1, Raise e) => (st1, Raise e)
  end.
Proof. reflexivity. Qed.

Lemma trades_body_count row st (p : call -> bool) :
  (forall d, p (InsertTrade d) = false) ->
  count_calls p (log (trades_body row st).1) = count_calls p (log st).
Proof.
  intros Hp.
  destruct (trades_body_cases row st)
    as [-> | (k & id & u & ts & printed & _ & _ & _ & _ & _ & _ & -> & _)];
    [reflexivity |].
  rewrite count_calls_app. unfold count_calls at 2. simpl. rewrite Hp. simpl. lia.
Qed.

Lemma trades_loop_count (df : list Row) st (p : call -> bool) :
  (forall d, p (InsertTrade d) = false) ->
  count_calls p (log (trades_loop df st).1) = count_calls p (log st).
Proof.
  intros Hp. revert st. induction df as [| row df IH]; intros st; [reflexivity |].
  unfold trades_loop in *. simpl. unfold bind.
  pose proof (trades_body_count row st p Hp) as H1.
  destruct (trades_body row st) as [st' [[] | e]]; simpl in *; [| exact H1].
  rewrite IH. exact H1.
Qed.

(** *** Where an insertion comes from *)

(** An insertion found in the log after the stock loop was either there
    before, or was built from the first row of the loop that passes the
    test with that key, for a key that was not in [stocks]. *)
Lemma stocks_loop_insert_origin (l : list Row) st (d : stock_data) :
  InsertStock d ∈ log (stocks_loop l st).1 ->
  InsertStock d ∈ log st
  \/ (stocks st !! sd_key d = None
      /\ exists i row,
           l !! i = Some row
           /\ stock_key row = Some (sd_key d)
           /\ (forall j row', j < i -> l !! j = Some row' ->
                 stock_key row' <> Some (sd_key d))
           /\ d = mk_stock_data row (sd_ticker d) (sd_exchange d)).
Proof.
  revert st. induction l as [| row l IH]; intros st; [simpl; auto |].
  unfold stocks_loop in *. simpl. unfold bind.
  pose proof (stocks_body_log row st (InsertStock d)) as H1.
  pose proof (stocks_body_mono row st) as Hmono.
  pose proof (fun st' k => stocks_body_key row st st' k) as Hkey.
  assert (Hhere : InsertStock d ∈ log (stocks_body row st).1 ->
    InsertStock d ∈ log st
    \/ (stocks st !! sd_key d = None
        /\ exists i row0,
             (row :: l) !! i = Some row0
             /\ stock_key row0 = Some (sd_key d)
             /\ (forall j row', j < i -> (row :: l) !! j = Some row' ->
                   stock_key row' <> Some (sd_key d))
             /\ d = mk_stock_data row0 (sd_ticker d) (sd_exchange d))).
  { intros H. destruct (H1 H) as [? | (k & Hk & Hnone & [? | Hd])];
      [auto | discriminate |].
    injection Hd as ->. destruct k as [t e]. simpl in *. right.
    split; [exact Hnone |]. exists 0, row. simpl.
    split; [reflexivity |]. split; [exact Hk |]. split; [intros; lia | reflexivity]. }
  destruct (stocks_body row st) as [st' [[] | e]]; simpl in *; [| exact Hhere].
  intros H. destruct (IH st' H) as [H' | (Hnone & i & row0 & Hi & Hk & Hfirst & Hd)];
    [exact (Hhere H') |].
  right. split; [exact (lookup_weaken_None _ _ _ Hnone Hmono) |].
  exists (S i), row0. simpl. split; [exact Hi |]. split; [exact Hk |].
  split; [| exact Hd].
  intros [| j] row' Hj Hrow'; simpl in Hrow'.
  - injection Hrow' as <-. intros Hrow.
    destruct (Hkey st' (sd_key d) Hrow eq_refl) as [id Hid]. congruence.
  - apply (Hfirst j row'); [lia | exact Hrow'].
Qed.

(** Once a key is in [stocks], a later row with that key changes
    nothing in the stock loop. *)
Lemma stocks_loop_drop_later (l1 l2 : list Row) (row row' : Row) k st :
  row ∈ l1 -> stock_key row = Some k -> stock_key row' = Some k ->
  stocks_loop (l1 ++ row' :: l2) st = stocks_loop (l1 ++ l2) st.
Proof.
  intros Hin Hk Hk'. unfold stocks_loop. rewrite !for_each_app.
  destruct (for_each stocks_body l1 st) as [st1 [[] | e]] eqn:E1; [| reflexivity].
  simpl. unfold bind.
  rewrite (stocks_body_hit row' st1 k Hk'); [reflexivity |].
  exact (stocks_loop_key l1 st st1 row k Hin Hk E1).
Qed.

Lemma falsy_id_skips row st k :
  trade_key row = Some k ->
  truthy (default VNone (stocks st !! k)) = false ->
  trades_body row st = (st, Ok tt).
Proof. intros Hk Hid. rewrite (trades_body_key row st k Hk). simpl. rewrite Hid. reflexivity. Qed.



Lemma falsy_cell_fails_test row (t : value) (e : string) :
  split_ticker_exchange (Ticker row) = Ok (t, e) ->
  truthy (Ticker row) && truthy (Holding row) && truthy (Type_ row)
    && truthy (Date row) && truthy (Quantity row) = false ->
  truthy t && truthy (nan_to_none (Holding row)) && truthy (nan_to_none (Type_ row))
    && truthy (nan_to_none (Date row)) && truthy (nan_to_none (Quantity row)) = false.
Proof.
  intros Hs H. rewrite !truthy_nan_to_none.
  destruct (truthy (Ticker row)) eqn:Ht.
  - simpl in H.
    destruct (truthy (Holding row)), (truthy (Type_ row)), (truthy (Date row)),
      (truthy (Quantity row)); try discriminate; simpl;
      rewrite ?andb_false_r; reflexivity.
  - rewrite (split_falsy _ Ht) in Hs. injection Hs as <- <-. rewrite Ht. reflexivity.
Qed.

(** *** The stock pass *)

(** C1.  For two rows of the frame whose tickers normalize to the same
    key [k]: the whole run sends at most one stock insertion (and at most
    one lookup) for [k]; on a cache hit, that is when [k] is already in
    [stocks], the step of either row sends nothing and leaves the state
    as it is; and when the stock pass completes, the identifier found in
    [stocks] for [k] once the first row is processed, once the second row
    is processed, at the end of the pass and at the end of the run is one
    and the same. *)
Theorem stock_inserted_once_per_key (df : list Row) (s : Store) (i j : nat)
    (r1 r2 : Row) k :
  df !! i = Some r1 -> df !! j = Some r2 ->
  stock_key r1 = Some k -> stock_key r2 = Some k ->
  (count_calls (is_insert_for k) (log (import df (init s)).1) <= 1
   /\ count_calls (is_select_for k) (log (import df (init s)).1) <= 1)
  /\ (forall st, is_Some (stocks st !! k) ->
        stocks_body r1 st = (st, Ok tt) /\ stocks_body r2 st = (st, Ok tt))
  /\ (forall st1, stocks_loop df (init s) = (st1, Ok tt) ->
        exists id,
          stocks (stocks_loop (take (S i) df) (init s)).1 !! k = Some id
          /\ stocks (stocks_loop (take (S j) df) (init s)).1 !! k = Some id
          /\ stocks st1 !! k = Some id
          /\ stocks (import df (init s)).1 !! k = Some id).
Proof.
  intros Hi Hj Hk1 Hk2. split; [| split].
  - rewrite import_unfold.
    pose proof (stocks_loop_inv df (init s) (init_inv s)) as Hinv.
    destruct (stocks_loop df (init s)) as [st1 [[] | e]]; [| exact (Hinv k)].
    rewrite !trades_loop_count by reflexivity. destruct Hinv as [Honce _]. exact (Honce k).
  - intros st Hin. split; apply (stocks_body_hit _ st k); assumption.
  - intros st1 Hrun.
    assert (Hat : forall n row, df !! n = Some row -> stock_key row = Some k ->
      forall id, stocks st1 !! k = Some id ->
      stocks (stocks_loop (take (S n) df) (init s)).1 !! k = Some id).
    { intros n row Hn Hrow id Hid.
      pose proof Hrun as Hrun'. rewrite <- (take_drop (S n) df) in Hrun' at 1.
      apply for_each_prefix_ok in Hrun' as (stn & Hpre & Hpost).
      unfold stocks_loop. rewrite Hpre. simpl.
      assert (Hmem : row ∈ take (S n) df).
      { apply list_elem_of_lookup. exists n. rewrite lookup_take_lt by lia. exact Hn. }
      destruct (stocks_loop_key _ _ _ row k Hmem Hrow Hpre) as [id' Hid'].
      pose proof (stocks_loop_mono (drop (S n) df) stn) as Hmono.
      unfold stocks_loop in Hmono. rewrite Hpost in Hmono. simpl in Hmono.
      pose proof (lookup_weaken _ _ _ _ Hid' Hmono). congruence. }
    destruct (stocks_loop_key df (init s) st1 r1 k (list_elem_of_lookup_2 _ _ _ Hi) Hk1 Hrun)
      as [id Hid].
    exists id. split; [exact (Hat i r1 Hi Hk1 id Hid) |].
    split; [exact (Hat j r2 Hj Hk2 id Hid) |]. split; [exact Hid |].
    rewrite import_unfold, Hrun, trades_loop_stocks. exact Hid.
Qed.

(** C8.  Every stock insertion sent during a run was built from the first
    row of the frame that passes the required-field test with that key:
    its name and currency are that row's.  A later row with the same key
    has no effect on the stock pass, whatever its name and currency:
    removing it from the frame leaves the outcome, the store, the log and
    [stocks] the same. *)
Theorem first_row_of_a_key_wins (df : list Row) (s : Store) :
  (forall d, InsertStock d ∈ log (import df (init s)).1 ->
     exists i row,
       df !! i = Some row
       /\ stock_key row = Some (sd_key d)
       /\ (forall j row', j < i -> df !! j = Some row' ->
             stock_key row' <> Some (sd_key d))
       /\ sd_name d = nan_to_none (Holding row)
       /\ sd_currency d = nan_to_none (Holding_Currency row))
  /\ (forall l1 l2 row row' k st,
        row ∈ l1 -> stock_key row = Some k -> stock_key row' = Some k ->
        stocks_loop (l1 ++ row' :: l2) st = stocks_loop (l1 ++ l2) st).
Proof.
  split; [| intros l1 l2 row row' k st; apply stocks_loop_drop_later].
  intros d Hd.
  assert (Hd1 : InsertStock d ∈ log (stocks_loop df (init s)).1).
  { rewrite import_unfold in Hd.
    destruct (stocks_loop df (init s)) as [st1 [[] | e]] eqn:E; simpl; [| exact Hd].
    destruct (trades_loop_log df st1 _ Hd)
      as [? | (row & id & u & ts & printed & _ & _ & _ & ?)];
      [assumption | discriminate]. }
  destruct (stocks_loop_insert_origin df (init s) d Hd1)
    as [Habs | (_ & i & row & Hi & Hk & Hfirst & Heq)]; [inversion Habs |].
  exists i, row. split; [exact Hi |]. split; [exact Hk |]. split; [exact Hfirst |].
  rewrite Heq. split; reflexivity.
Qed.

(** *** The trade pass *)

(** C2, as amended.  Take a run whose stock pass completed and whose
    trade pass has reached row [i].  If the five values the trade pass
    tests on that row (ticker, name, trade_type, trade_date, quantity) are
    all truthy, the identifier stored for its key is truthy, its
    trade_type is a string, its date parses and the parsed date prints,
    then the step of that row sends exactly one trade insertion, whose
    trade_type is [upper] of the row's type and whose trade_date is the
    parse of the row's date with [dayfirst=True], printed by [strftime]
    with the format %Y-%m-%d. *)
Theorem complete_row_inserts_one_trade (df : list Row) (s : Store) (i : nat)
    (row : Row) (st1 st2 : state Store) k (u : string) (ts : Timestamp)
    (printed : string) :
  df !! i = Some row ->
  stocks_loop df (init s) = (st1, Ok tt) ->
  trades_loop (take i df) st1 = (st2, Ok tt) ->
  trade_key row = Some k ->
  truthy (default VNone (stocks st1 !! k)) = true ->
  nan_to_none (Type_ row) = VStr u ->
  to_datetime (nan_to_none (Date row)) true = Ok ts ->
  strftime ts "%Y-%m-%d" = Ok printed ->
  exists d,
    log (trades_body row st2).1 = log st2 ++ [InsertTrade d]
    /\ trades_loop (take (S i) df) st1 = trades_body row st2
    /\ d = mk_trade_data row (default VNone (stocks st1 !! k)) (upper u) printed
    /\ stocks st1 !! k = Some (td_stock_id d)
    /\ td_trade_type d = upper u
    /\ td_trade_date d = printed.
Proof.
  intros Hi Hrun1 Hrun2 Hk Hid Hu Hts Hpr.
  assert (Hst : stocks st2 = stocks st1).
  { pose proof (trades_loop_stocks (take i df) st1) as H. rewrite Hrun2 in H. exact H. }
  exists (mk_trade_data row (default VNone (stocks st1 !! k)) (upper u) printed).
  split; [| split].
  - rewrite (trades_body_key row st2 k Hk). simpl. rewrite Hst, Hid, Hu, Hts. simpl.
    unfold date_format. rewrite Hpr.
    unfold do_insert_trade. destruct (insert_trade _ (remote st2)) as [s' r]. reflexivity.
  - rewrite (take_S_r df i row Hi). unfold trades_loop in *.
    rewrite for_each_app, Hrun2. simpl. unfold bind.
    destruct (trades_body row st2) as [st3 [[] | e]]; reflexivity.
  - split; [reflexivity |]. simpl. split; [| split; reflexivity].
    destruct (stocks st1 !! k); [reflexivity | discriminate].
Qed.


(** C7, as amended.  After a completed stock pass, a row of the frame
    that passes the required-field test of the trade pass also passed the
    one of the stock pass, and its key is in [stocks] at every point of
    the trade pass: the lookup of line 68 finds an identifier, and the row
    is never skipped for a key that is absent.  The step of the row is
    then decided by that identifier: when it is falsy the branch of line
    69 skips the row, and when it is truthy the step goes on to the
    conversions and the insertion. *)
Theorem trade_lookup_finds_the_stock (df : list Row) (s : Store) (st1 : state Store)
    (i : nat) (row : Row) k :
  stocks_loop df (init s) = (st1, Ok tt) ->
  df !! i = Some row ->
  trade_key row = Some k ->
  stock_key row = Some k
  /\ forall l : list Row,
       exists id,
         stocks (trades_loop l st1).1 !! k = Some id
         /\ stocks_get k (trades_loop l st1).1 = ((trades_loop l st1).1, Ok id)
         /\ trades_body row (trades_loop l st1).1 =
            if truthy id then
              match str_upper (nan_to_none (Type_ row)) with
              | Ok upper_type =>
                  match to_datetime (nan_to_none (Date row)) true with
                  | Ok parsed =>
                      match strftime parsed date_format with
                      | Ok printed =>
                          do_insert_trade (mk_trade_data row id upper_type printed)
                            (trades_loop l st1).1
                      | Raise e => ((trades_loop l st1).1, Raise e)
                      end
                  | Raise e => ((trades_loop l st1).1, Raise e)
                  end
              | Raise e => ((trades_loop l st1).1, Raise e)
              end
            else ((trades_loop l st1).1, Ok tt).
Proof.
  intros Hrun Hi Hk. pose proof (trade_key_stock_key row k Hk) as Hsk.
  split; [exact Hsk |]. intros l.
  destruct (stocks_loop_key df (init s) st1 row k (list_elem_of_lookup_2 _ _ _ Hi) Hsk Hrun)
    as [id Hid].
  rewrite <- (trades_loop_stocks l st1) in Hid.
  exists id. split; [exact Hid |]. split.
  - unfold stocks_get. rewrite Hid. reflexivity.
  - rewrite (trades_body_key row _ k Hk). simpl. rewrite Hid. reflexivity.
Qed.

(** C9.  A row whose ticker cell is a cell of a text column and one of
    whose required cells (ticker, name, type, date, quantity) is falsy,
    such as a quantity equal to the number 0 or an empty string, is
    skipped by the trade pass: its step returns normally and leaves the
    store, the log and [stocks] as they are. *)
Theorem falsy_required_cell_skips_the_trade (row : Row) (st : state Store) :
  text_cell (Ticker row) = true ->
  (Quantity row = number 0 -> trades_body row st = (st, Ok tt))
  /\ (truthy (Ticker row) && truthy (Holding row) && truthy (Type_ row)
        && truthy (Date row) && truthy (Quantity row) = false ->
      trades_body row st = (st, Ok tt)).
Proof.
  intros Htext. destruct (split_text_cell _ Htext) as (t & e & Hs).
  assert (Hgen : truthy (Ticker row) && truthy (Holding row) && truthy (Type_ row)
        && truthy (Date row) && truthy (Quantity row) = false ->
      trades_body row st = (st, Ok tt)).
  { intros H. apply (trades_body_skip row st t e Hs).
    exact (falsy_cell_fails_test row t e Hs H). }
  split; [| exact Hgen].
  intros Hq. apply Hgen. rewrite Hq. simpl. apply andb_false_r.
Qed.


End Properties.

(** ** The properties on the sample frame *)

Lemma stock_inserted_once_per_key_witness :
  sample_frame !! 0 = Some row_ogzd
  /\ sample_frame !! 2 = Some row_ogzd_again
  /\ stock_key row_ogzd = Some ogzd_key
  /\ stock_key row_ogzd_again = Some ogzd_key
  /\ count_calls (is_insert_for ogzd_key) (log sample_run.1) <= 1.
Proof.
  split; [reflexivity |]. split; [reflexivity |].
  split; [reflexivity |]. split; [reflexivity |].
  exact (proj1 (proj1 (stock_inserted_once_per_key sample_frame
                         (mem_empty 1) 0 2 row_ogzd row_ogzd_again ogzd_key
                         eq_refl eq_refl eq_refl eq_refl))).
Defined.

Lemma first_row_of_a_key_wins_witness :
  InsertStock (mk_stock_data row_ogzd (VStr "OGZD") "LSE") ∈ log sample_run.1
  /\ exists i row,
       sample_frame !! i = Some row
       /\ stock_key row = Some ogzd_key
       /\ VStr "Gazprom" = nan_to_none (Holding row)
       /\ VStr "USD" = nan_to_none (Holding_Currency row).
Proof.
  assert (Hin : InsertStock (mk_stock_data row_ogzd (VStr "OGZD") "LSE") ∈ log sample_run.1).
  { apply (list_elem_of_lookup_2 _ 1). reflexivity. }
  split; [exact Hin |].
  destruct (proj1 (first_row_of_a_key_wins sample_frame (mem_empty 1))
              _ Hin) as (i & row & Hi & Hk & _ & Hn & Hc).
  exists i, row. auto.
Defined.

Lemma complete_row_inserts_one_trade_witness :
  sample_frame !! 2 = Some row_ogzd_again
  /\ stocks_loop sample_frame (init (mem_empty 1)) = (sample_after_stocks, Ok tt)
  /\ trade_key row_ogzd_again = Some ogzd_key
  /\ truthy (default VNone (stocks sample_after_stocks !! ogzd_key)) = true
  /\ exists d,
       log (trades_loop (take 3 sample_frame) sample_after_stocks).1
       = log (trades_loop (take 2 sample_frame) sample_after_stocks).1
         ++ [InsertTrade d]
       /\ td_trade_type d = "SELL"
       /\ td_trade_date d = "2020-04-17".
Proof.
  assert (H1 : stocks_loop sample_frame (init (mem_empty 1)) = (sample_after_stocks, Ok tt))
    by (vm_compute; reflexivity).
  assert (H2 : trades_loop (take 2 sample_frame) sample_after_stocks
               = ((trades_loop (take 2 sample_frame)
                     sample_after_stocks).1, Ok tt))
    by (vm_compute; reflexivity).
  assert (H3 : truthy (default VNone (stocks sample_after_stocks !! ogzd_key)) = true)
    by (vm_compute; reflexivity).
  split; [reflexivity |]. split; [exact H1 |]. split; [reflexivity |]. split; [exact H3 |].
  destruct (complete_row_inserts_one_trade (library := sample_library)
              sample_frame (mem_empty 1) 2
              row_ogzd_again sample_after_stocks _
              ogzd_key "sell" {| cd_year := 2020; cd_month := 4; cd_day := 17 |}
              "2020-04-17" eq_refl H1 H2 eq_refl H3 eq_refl eq_refl eq_refl)
    as (d & Hlog & Hloop & _ & _ & Hty & Hdate).
  exists d. rewrite Hloop. auto.
Defined.

(** C2, as stated, fails on a row whose quantity is the number 0: its five
    required cells are all present, the run completes, and no trade is
    inserted. *)
Lemma zero_quantity_row_inserts_no_trade :
  isna (Ticker row_zero_quantity) = false
  /\ isna (Holding row_zero_quantity) = false
  /\ isna (Type_ row_zero_quantity) = false
  /\ isna (Date row_zero_quantity) = false
  /\ isna (Quantity row_zero_quantity) = false
  /\ (import [row_zero_quantity] (init (mem_empty 1))).2 = Ok tt
  /\ count_calls is_insert_trade
       (log (import [row_zero_quantity] (init (mem_empty 1))).1) = 0
  /\ ms_trades (remote (import [row_zero_quantity]
                          (init (mem_empty 1))).1) = [].
Proof. repeat split. Qed.



Lemma trade_lookup_finds_the_stock_witness :
  stocks_loop sample_frame (init (mem_empty 1)) = (sample_after_stocks, Ok tt)
  /\ sample_frame !! 0 = Some row_ogzd
  /\ trade_key row_ogzd = Some ogzd_key
  /\ stock_key row_ogzd = Some ogzd_key
  /\ exists id, stocks sample_after_stocks !! ogzd_key = Some id.
Proof.
  assert (H1 : stocks_loop sample_frame (init (mem_empty 1)) = (sample_after_stocks, Ok tt))
    by (vm_compute; reflexivity).
  split; [exact H1 |]. split; [reflexivity |]. split; [reflexivity |].
  destruct (trade_lookup_finds_the_stock sample_frame (mem_empty 1)
              sample_after_stocks 0 row_ogzd ogzd_key H1 eq_refl eq_refl)
    as [Hsk Hall].
  split; [exact Hsk |].
  destruct (Hall []) as (id & Hid & _). exists id. exact Hid.
Defined.

Lemma falsy_required_cell_skips_the_trade_witness :
  text_cell (Ticker row_zero_quantity) = true
  /\ Quantity row_zero_quantity = number 0
  /\ trades_body row_zero_quantity sample_after_stocks
     = (sample_after_stocks, Ok tt).
Proof.
  split; [reflexivity |]. split; [reflexivity |].
  exact (proj1 (falsy_required_cell_skips_the_trade row_zero_quantity
                  sample_after_stocks eq_refl) eq_refl).
Defined.


(** C7, as stated, fails against a store whose first identifier is 0:
    the first row passes both required-field tests, its stock is stored
    under 0 and its lookup finds it, yet the branch of line 69 skips the
    row and the completed run inserts no trade.  Against a store whose
    first identifier is 1 the same row gets its trade. *)
Lemma zero_identifier_skips_the_trade :
  stock_key row_ogzd = Some ogzd_key
  /\ trade_key row_ogzd = Some ogzd_key
  /\ stocks (stocks_loop [row_ogzd] (init (mem_empty 0))).1 !! ogzd_key = Some (number 0)
  /\ trades_body row_ogzd (stocks_loop [row_ogzd] (init (mem_empty 0))).1
     = ((stocks_loop [row_ogzd] (init (mem_empty 0))).1, Ok tt)
  /\ (import [row_ogzd] (init (mem_empty 0))).2 = Ok tt
  /\ count_calls is_insert_trade (log (import [row_ogzd] (init (mem_empty 0))).1) = 0
  /\ count_calls is_insert_trade (log (import [row_ogzd] (init (mem_empty 1))).1) = 1.
Proof. repeat split. Qed.

(** * Further behaviour of the script *)

Section Behaviour.

Context {Store : Type} `{!Remote Store} {library : Library}.

Implicit Types (st : state Store) (row : Row) (k : value * string).

(** ** [split_ticker_exchange] on any object *)

Lemma before_dot_clean (s : string) : contains_dot (before_dot s) = false.
Proof.
  induction s as [| c s IH]; simpl; [reflexivity |].
  destruct (Ascii.eqb c dot) eqn:E; simpl; [reflexivity |]. rewrite E. exact IH.
Qed.

Lemma split_string_parts (s : string) (t : value) (e : string) :
  split_ticker_exchange (VStr s) = Ok (t, e) ->
  exists t', t = VStr t' /\ contains_dot t' = false /\ contains_dot e = false.
Proof.
  destruct (contains_dot s) eqn:E.
  - rewrite (split_with_dot s E). intros [= <- <-].
    exists (before_dot s). auto using before_dot_clean.
  - rewrite (split_without_dot s E). intros [= <- <-]. exists s. auto.
Qed.

(** X1.  [split_ticker_exchange] raises exactly on a truthy object that is
    not a string (NaN, a non-zero number), and then it raises TypeError;
    on a string, on [None] and on zero it returns a pair.  In particular
    [parts[1]] never raises IndexError. *)
Theorem split_ticker_exchange_raises_only_type_error (x : value) :
  if truthy x && negb (text_cell x)
  then split_ticker_exchange x = Raise TypeError
  else exists t e, split_ticker_exchange x = Ok (t, e).
Proof.
  destruct x as [| | s | q]; simpl.
  - exists VNone, EmptyString. reflexivity.
  - reflexivity.
  - rewrite andb_false_r. apply (split_text_cell (VStr s)). reflexivity.
  - rewrite andb_true_r. unfold split_ticker_exchange. simpl.
    destruct (negb (QArith_base.Qnum q =? 0)%Z); [reflexivity |].
    eexists _, _. reflexivity.
Qed.

(** X2.  Whatever string it is given, [split_ticker_exchange] returns a
    ticker that is a string without a dot and an exchange without a dot:
    text after a second dot is never part of either. *)
Theorem split_ticker_exchange_parts_have_no_dot (s : string) (t : value) (e : string) :
  split_ticker_exchange (VStr s) = Ok (t, e) ->
  exists t', t = VStr t' /\ contains_dot t' = false /\ contains_dot e = false.
Proof. apply split_string_parts. Qed.

(** ** One step of the stock loop, by answer of the store *)

Lemma stocks_body_select row st k :
  stock_key row = Some k -> stocks st !! k = None ->
  stocks_body row st =
  match select_stock k.1 k.2 (remote st) with
  | (s1, Raise e) =>
      ({| remote := s1; log := log st ++ [SelectStock k.1 k.2]; stocks := stocks st |},
       Raise e)
  | (s1, Ok (id :: _)) =>
      ({| remote := s1; log := log st ++ [SelectStock k.1 k.2];
          stocks := <[k := id]> (stocks st) |}, Ok tt)
  | (s1, Ok []) =>
      let d := mk_stock_data row k.1 k.2 in
      let l := log st ++ [SelectStock k.1 k.2; InsertStock d] in
      match insert_stock d s1 with
      | (s2, Raise e) => ({| remote := s2; log := l; stocks := stocks st |}, Raise e)
      | (s2, Ok []) => ({| remote := s2; log := l; stocks := stocks st |}, Raise IndexError)
      | (s2, Ok (id :: _)) =>
          ({| remote := s2; log := l; stocks := <[k := id]> (stocks st) |}, Ok tt)
      end
  end.
Proof.
  intros Hk Hout. destruct (stock_key_split row k Hk) as (Hs & Ht & Hn).
  destruct k as [t e]. simpl in Ht. simpl.
  unfold stocks_body, bind, lift, key_in_stocks. rewrite Hs, Ht, Hn. simpl.
  rewrite bool_decide_eq_false_2 by (rewrite Hout; apply is_Some_None). simpl.
  unfold do_select.
  destruct (select_stock t e (remote st)) as [s1 [[| id ids] | err]]; simpl;
    [| reflexivity | reflexivity].
  unfold do_insert_stock; simpl.
  destruct (insert_stock (mk_stock_data row t e) s1) as [s2 [[| id2 ids2] | err2]]; simpl;
    rewrite <- app_assoc; reflexivity.
Qed.

(** X3.  A stock the store already has is adopted: when the lookup of a
    new key answers with rows, the step sends no insertion, whatever name
    and currency the row carries, and records the identifier of the first
    row of the answer in [stocks]. *)
Theorem existing_stock_is_adopted row st k (s1 : Store) (id : value) (ids : list value) :
  stock_key row = Some k ->
  stocks st !! k = None ->
  select_stock k.1 k.2 (remote st) = (s1, Ok (id :: ids)) ->
  stocks_body row st =
  ({| remote := s1; log := log st ++ [SelectStock k.1 k.2];
      stocks := <[k := id]> (stocks st) |}, Ok tt).
Proof.
  intros Hk Hout Hsel. rewrite (stocks_body_select row st k Hk Hout), Hsel. reflexivity.
Qed.

(** X4.  A stock the store does not have is inserted once and its new
    identifier kept: when the lookup of a new key answers with no row and
    the insertion answers with rows, the step has sent the lookup and then
    the insertion of this row's ticker, exchange, name and currency, and
    records the identifier of the first row of the answer in [stocks]. *)
Theorem unknown_stock_is_inserted row st k (s1 s2 : Store) (id : value) (ids : list value) :
  stock_key row = Some k ->
  stocks st !! k = None ->
  select_stock k.1 k.2 (remote st) = (s1, Ok []) ->
  insert_stock (mk_stock_data row k.1 k.2) s1 = (s2, Ok (id :: ids)) ->
  stocks_body row st =
  ({| remote := s2;
      log := log st ++ [SelectStock k.1 k.2; InsertStock (mk_stock_data row k.1 k.2)];
      stocks := <[k := id]> (stocks st) |}, Ok tt)
  /\ sd_key (mk_stock_data row k.1 k.2) = k
  /\ sd_name (mk_stock_data row k.1 k.2) = nan_to_none (Holding row)
  /\ sd_currency (mk_stock_data row k.1 k.2) = nan_to_none (Holding_Currency row).
Proof.
  intros Hk Hout Hsel Hins. rewrite (stocks_body_select row st k Hk Hout), Hsel. simpl.
  rewrite Hins. destruct k. auto.
Qed.

(** X5.  A failing request leaves [stocks] as it was and its exception
    leaves the step: a lookup that raises, an insertion that raises, and
    an insertion that answers with no row (IndexError at
    [insert_res.data[0]]).  In the last two cases the insertion has been
    sent all the same. *)
Theorem failed_stock_request_stores_nothing row st k :
  stock_key row = Some k ->
  stocks st !! k = None ->
  (forall s1 e, select_stock k.1 k.2 (remote st) = (s1, Raise e) ->
     stocks_body row st =
     ({| remote := s1; log := log st ++ [SelectStock k.1 k.2]; stocks := stocks st |},
      Raise e))
  /\ (forall s1 s2 e, select_stock k.1 k.2 (remote st) = (s1, Ok []) ->
        insert_stock (mk_stock_data row k.1 k.2) s1 = (s2, Raise e) ->
        stocks_body row st =
        ({| remote := s2;
            log := log st ++ [SelectStock k.1 k.2; InsertStock (mk_stock_data row k.1 k.2)];
            stocks := stocks st |}, Raise e))
  /\ (forall s1 s2, select_stock k.1 k.2 (remote st) = (s1, Ok []) ->
        insert_stock (mk_stock_data row k.1 k.2) s1 = (s2, Ok []) ->
        stocks_body row st =
        ({| remote := s2;
            log := log st ++ [SelectStock k.1 k.2; InsertStock (mk_stock_data row k.1 k.2)];
            stocks := stocks st |}, Raise IndexError)).
Proof.
  intros Hk Hout. split; [| split].
  - intros s1 e Hsel. rewrite (stocks_body_select row st k Hk Hout), Hsel. reflexivity.
  - intros s1 s2 e Hsel Hins. rewrite (stocks_body_select row st k Hk Hout), Hsel.
    simpl. rewrite Hins. reflexivity.
  - intros s1 s2 Hsel Hins. rewrite (stocks_body_select row st k Hk Hout), Hsel.
    simpl. rewrite Hins. reflexivity.
Qed.

(** X6.  The stock pass only tests ticker and name: a row with both, but
    whose type, date or quantity is missing, is skipped by the trade pass
    and still has its stock looked up by the stock pass when its key is
    new. *)
Theorem stock_is_created_for_an_incomplete_trade row k :
  stock_key row = Some k ->
  isna (Type_ row) || isna (Date row) || isna (Quantity row) = true ->
  (forall st, trades_body row st = (st, Ok tt))
  /\ (forall st, stocks st !! k = None ->
        exists new, log (stocks_body row st).1 = log st ++ SelectStock k.1 k.2 :: new).
Proof.
  intros Hk Hmiss. destruct (stock_key_split row k Hk) as (Hs & Ht & Hn). split.
  - intros st. destruct k as [t e]. apply (trades_body_skip row st t e Hs).
    rewrite !truthy_nan_to_none.
    destruct (isna (Type_ row)), (isna (Date row)), (isna (Quantity row));
      try discriminate; simpl; rewrite ?andb_false_r; reflexivity.
  - intros st Hout. destruct (stocks_body_miss row st k Hk Hout) as (new & Hlog & _).
    exists new. exact Hlog.
Qed.

(** ** The two passes *)

Lemma trades_in_app (l1 l2 : list call) :
  trades_in (l1 ++ l2) = trades_in l1 ++ trades_in l2.
Proof. apply omap_app. Qed.

Lemma stocks_body_trades row st :
  trades_in (log (stocks_body row st).1) = trades_in (log st).
Proof.
  destruct (stock_key row) as [k0 |] eqn:Hk.
  - destruct (stocks st !! k0) as [id0 |] eqn:Hin.
    + rewrite (stocks_body_hit row st k0 Hk) by (rewrite Hin; eauto). reflexivity.
    + destruct (stocks_body_miss row st k0 Hk Hin) as (new & -> & Hnew & _).
      rewrite trades_in_app. destruct Hnew as [-> | ->]; simpl; apply app_nil_r.
  - rewrite (stocks_body_no_key row st Hk). reflexivity.
Qed.

Lemma stocks_loop_trades (df : list Row) st :
  trades_in (log (stocks_loop df st).1) = trades_in (log st).
Proof.
  revert st. induction df as [| row df IH]; intros st; [reflexivity |].
  unfold stocks_loop in *. simpl. unfold bind.
  pose proof (stocks_body_trades row st) as H1.
  destruct (stocks_body row st) as [st' [[] | e]]; simpl in *; [| exact H1].
  rewrite IH. exact H1.
Qed.

Lemma trades_body_requests row st :
  List.filter is_stock_request (log (trades_body row st).1)
  = List.filter is_stock_request (log st).
Proof.
  destruct (trades_body_cases row st)
    as [-> | (k & id & u & ts & printed & _ & _ & _ & _ & _ & _ & -> & _)];
    [reflexivity |].
  rewrite List.filter_app. simpl. apply app_nil_r.
Qed.

Lemma trades_loop_requests (df : list Row) st :
  List.filter is_stock_request (log (trades_loop df st).1)
  = List.filter is_stock_request (log st).
Proof.
  revert st. induction df as [| row df IH]; intros st; [reflexivity |].
  unfold trades_loop in *. simpl. unfold bind.
  pose proof (trades_body_requests row st) as H1.
  destruct (trades_body row st) as [st' [[] | e]]; simpl in *; [| exact H1].
  rewrite IH. exact H1.
Qed.

(** X7.  Each pass keeps to its own table, completed or not: the stock
    pass sends no trade insertion, and the trade pass sends no stock
    lookup or insertion and leaves [stocks] as the stock pass built
    it. *)
Theorem passes_keep_to_their_table (df : list Row) st :
  trades_in (log (stocks_loop df st).1) = trades_in (log st)
  /\ List.filter is_stock_request (log (trades_loop df st).1)
     = List.filter is_stock_request (log st)
  /\ stocks (trades_loop df st).1 = stocks st.
Proof.
  split; [apply stocks_loop_trades |].
  split; [apply trades_loop_requests | apply trades_loop_stocks].
Qed.

(** X8.  When the stock pass raises, the run ends with that exception
    before the trade pass starts: no trade has been inserted, for any
    row. *)
Theorem failed_stock_pass_inserts_no_trade (df : list Row) (s : Store)
    (st1 : state Store) (e : exn) :
  stocks_loop df (init s) = (st1, Raise e) ->
  import df (init s) = (st1, Raise e)
  /\ trades_in (log st1) = [].
Proof.
  intros Hrun. split; [rewrite import_unfold, Hrun; reflexivity |].
  pose proof (stocks_loop_trades df (init s)) as H. rewrite Hrun in H. exact H.
Qed.

(** X9.  A row that passes the tests of lines 64 and 69 but whose type has
    no [upper] (AttributeError, for a number), whose date does not parse
    or whose parsed date does not print stops the trade pass with that
    exception: nothing is sent for it, the insertions of the rows before
    it stay, and the rows after it are not processed. *)
Theorem conversion_error_stops_the_trade_pass (l1 l2 : list Row) row
    (st st1 : state Store) k (e : exn) :
  trades_loop l1 st = (st1, Ok tt) ->
  trade_key row = Some k ->
  truthy (default VNone (stocks st !! k)) = true ->
  match str_upper (nan_to_none (Type_ row)) with
  | Raise e' => e' = e
  | Ok _ =>
      match to_datetime (nan_to_none (Date row)) true with
      | Raise e' => e' = e
      | Ok parsed => strftime parsed date_format = Raise e
      end
  end ->
  trades_loop (l1 ++ row :: l2) st = (st1, Raise e)
  /\ (forall q, nan_to_none (Type_ row) = VNum q -> e = AttributeError).
Proof.
  intros Hrun Hk Hid Hconv.
  assert (Hst : stocks st1 = stocks st).
  { pose proof (trades_loop_stocks l1 st) as H. rewrite Hrun in H. exact H. }
  split.
  - unfold trades_loop in *. rewrite for_each_app, Hrun. simpl. unfold bind.
    rewrite (trades_body_key row st1 k Hk). simpl. rewrite Hst, Hid.
    destruct (str_upper (nan_to_none (Type_ row))) as [u | e']; [| subst e'; reflexivity].
    destruct (to_datetime (nan_to_none (Date row)) true) as [ts | e'];
      [| subst e'; reflexivity].
    rewrite Hconv. reflexivity.
  - intros q Hq. rewrite Hq in Hconv. simpl in Hconv. congruence.
Qed.

(** *** The trades of a completed run *)

Lemma trades_body_trace row st st' :
  trades_body row st = (st', Ok tt) ->
  trades_in (log st')
  = trades_in (log st) ++ option_list (trade_of (stocks st) row)
  /\ stocks st' = stocks st.
Proof.
  unfold trade_of. destruct (trade_key row) as [k |] eqn:Hk.
  - rewrite (trades_body_key row st k Hk). simpl.
    destruct (truthy (default VNone (stocks st !! k)));
      [| intros [= <-]; rewrite app_nil_r; auto].
    destruct (str_upper (nan_to_none (Type_ row))) as [u | e1]; [| discriminate].
    destruct (to_datetime (nan_to_none (Date row)) true) as [ts | e2]; [| discriminate].
    destruct (strftime ts date_format) as [printed | e3]; [| discriminate].
    unfold do_insert_trade. destruct (insert_trade _ (remote st)) as [s1 r].
    intros [= <- ->]. simpl. rewrite trades_in_app. auto.
  - intros H. pose proof (trades_body_no_key row st Hk) as H'.
    rewrite H in H'. simpl in H'. subst st'. rewrite app_nil_r. auto.
Qed.

Lemma trades_loop_trace (df : list Row) st st' :
  trades_loop df st = (st', Ok tt) ->
  trades_in (log st')
  = trades_in (log st) ++ omap (trade_of (stocks st)) df.
Proof.
  revert st. induction df as [| row df IH]; intros st.
  - intros [= <-]. simpl. rewrite app_nil_r. reflexivity.
  - unfold trades_loop in *. simpl. unfold bind.
    destruct (trades_body row st) as [st1 [[] | e]] eqn:Hrow; [| discriminate].
    intros Hrest. destruct (trades_body_trace row st st1 Hrow) as [Htr Hst].
    rewrite (IH st1 Hrest), Htr, Hst, <- app_assoc. f_equal.
    destruct (trade_of (stocks st) row); reflexivity.
Qed.

Lemma import_ok (df : list Row) st st' :
  import df st = (st', Ok tt) ->
  exists st1, stocks_loop df st = (st1, Ok tt)
    /\ trades_loop df st1 = (st', Ok tt)
    /\ stocks st' = stocks st1.
Proof.
  rewrite import_unfold. destruct (stocks_loop df st) as [st1 [[] | e]]; [| discriminate].
  intros H. exists st1. split; [reflexivity |]. split; [exact H |].
  pose proof (trades_loop_stocks df st1) as Hs. rewrite H in Hs. exact Hs.
Qed.

(** X10.  The trades of a completed run follow the rows: the insertions
    sent are, in the order of the frame, the records of the rows that pass
    the tests of lines 64 and 69, each built with the identifier [stocks]
    holds for the row's key; so there are never more trades than rows. *)
Theorem trades_follow_the_rows (df : list Row) (s : Store) (st : state Store) :
  import df (init s) = (st, Ok tt) ->
  trades_in (log st) = omap (trade_of (stocks st)) df
  /\ length (trades_in (log st)) <= length df.
Proof.
  intros Hrun. destruct (import_ok df (init s) st Hrun) as (st1 & H1 & H2 & Hst).
  assert (Heq : trades_in (log st) = omap (trade_of (stocks st)) df).
  { rewrite (trades_loop_trace df st1 st H2), Hst.
    pose proof (stocks_loop_trades df (init s)) as H. rewrite H1 in H. simpl in H.
    rewrite H. reflexivity. }
  split; [exact Heq |]. rewrite Heq. clear.
  induction df as [| row df IH]; simpl; [lia |].
  destruct (trade_of (stocks st) row); simpl;
    [apply le_n_S | apply le_S]; exact IH.
Qed.

Lemma trades_body_ok_trade row st st' k :
  trades_body row st = (st', Ok tt) ->
  trade_key row = Some k ->
  truthy (default VNone (stocks st !! k)) = true ->
  is_Some (trade_of (stocks st) row).
Proof.
  intros Hrun Hk Hid. unfold trade_of. rewrite Hk. simpl. rewrite Hid.
  rewrite (trades_body_key row st k Hk) in Hrun. simpl in Hrun.
  rewrite Hid in Hrun.
  destruct (str_upper (nan_to_none (Type_ row))) as [u | e1]; [| discriminate].
  destruct (to_datetime (nan_to_none (Date row)) true) as [ts | e2]; [| discriminate].
  destruct (strftime ts date_format) as [printed | e3]; [| discriminate].
  eauto.
Qed.

Lemma omap_cons_length {A B : Type} (f : A -> option B) (x : A) (l : list A) :
  length (omap f (x :: l)) = length (option_list (f x)) + length (omap f l).
Proof. simpl. destruct (f x); reflexivity. Qed.

Lemma trades_loop_all_sent (df : list Row) st st' :
  trades_loop df st = (st', Ok tt) ->
  (forall row k, row ∈ df -> trade_key row = Some k ->
     truthy (default VNone (stocks st !! k)) = true) ->
  length (omap (trade_of (stocks st)) df)
  = length (List.filter passes_trade_test df).
Proof.
  revert st. induction df as [| row df IH]; intros st Hrun Hids; [reflexivity |].
  unfold trades_loop in Hrun, IH. simpl in Hrun. unfold bind in Hrun.
  destruct (trades_body row st) as [st1 [[] | e]] eqn:Hrow; [| discriminate].
  destruct (trades_body_trace row st st1 Hrow) as [_ Hst].
  assert (IH' : length (omap (trade_of (stocks st)) df)
                = length (List.filter passes_trade_test df)).
  { rewrite <- Hst. apply IH; [exact Hrun |]. intros row0 k0 Hin Hk0. rewrite Hst.
    apply (Hids row0 k0); [apply list_elem_of_further, Hin | exact Hk0]. }
  rewrite omap_cons_length, IH'. cbn [List.filter].
  destruct (trade_key row) as [k |] eqn:Hk.
  - assert (Hp : passes_trade_test row = true).
    { unfold passes_trade_test. rewrite Hk. apply bool_decide_eq_true_2. eauto. }
    destruct (trades_body_ok_trade row st st1 k Hrow Hk
                (Hids row k (list_elem_of_here _ _) Hk)) as [d Hd].
    rewrite Hp, Hd. reflexivity.
  - assert (Hp : passes_trade_test row = false).
    { unfold passes_trade_test. rewrite Hk. apply bool_decide_eq_false_2, is_Some_None. }
    assert (Hd : trade_of (stocks st) row = None).
    { unfold trade_of. rewrite Hk. reflexivity. }
    rewrite Hp, Hd. reflexivity.
Qed.

(** X11.  Trades are not deduplicated: the store is never asked whether a
    trade exists.  In a completed run in which every identifier held in
    [stocks] is truthy, the number of trades inserted is the number of
    rows that pass the required-field test of line 64, whatever the store
    already contained. *)
Theorem every_complete_row_gets_a_trade (df : list Row) (s : Store) (st : state Store) :
  import df (init s) = (st, Ok tt) ->
  map_Forall (fun _ id => truthy id = true) (stocks st) ->
  length (trades_in (log st)) = length (List.filter passes_trade_test df).
Proof.
  intros Hrun Hids. destruct (import_ok df (init s) st Hrun) as (st1 & H1 & H2 & Hst).
  rewrite (trades_loop_trace df st1 st H2).
  pose proof (stocks_loop_trades df (init s)) as H. rewrite H1 in H. simpl in H.
  rewrite H. simpl. apply (trades_loop_all_sent df st1 st H2).
  intros row k Hin Hk.
  destruct (stocks_loop_key df (init s) st1 row k Hin (trade_key_stock_key row k Hk) H1)
    as [id Hid].
  rewrite Hid. simpl. apply (Hids k id). rewrite Hst. exact Hid.
Qed.

(** *** The keys of [stocks] *)

Lemma stocks_body_dom row st k :
  is_Some (stocks (stocks_body row st).1 !! k) ->
  is_Some (stocks st !! k) \/ stock_key row = Some k.
Proof.
  destruct (stock_key row) as [k0 |] eqn:Hk.
  - destruct (stocks st !! k0) as [id0 |] eqn:Hin.
    + rewrite (stocks_body_hit row st k0 Hk) by (rewrite Hin; eauto). auto.
    + destruct (stocks_body_miss row st k0 Hk Hin) as (new & _ & _ & Hres).
      destruct ((stocks_body row st).2); [| rewrite Hres; auto].
      destruct Hres as [id ->]. destruct (decide (k0 = k)) as [-> | Hne]; [auto |].
      rewrite lookup_insert_ne by exact Hne. auto.
  - rewrite (stocks_body_no_key row st Hk). auto.
Qed.

Lemma stocks_loop_dom (df : list Row) st k :
  is_Some (stocks (stocks_loop df st).1 !! k) ->
  is_Some (stocks st !! k) \/ exists row, row ∈ df /\ stock_key row = Some k.
Proof.
  revert st. induction df as [| row df IH]; intros st; [simpl; auto |].
  unfold stocks_loop in *. simpl. unfold bind.
  pose proof (stocks_body_dom row st k) as H1.
  assert (Hhere : is_Some (stocks (stocks_body row st).1 !! k) ->
    is_Some (stocks st !! k) \/ exists row0, row0 ∈ row :: df /\ stock_key row0 = Some k).
  { intros H. destruct (H1 H) as [? | ?]; [auto |].
    right. exists row. split; [apply list_elem_of_here | assumption]. }
  destruct (stocks_body row st) as [st' [[] | e]]; simpl in *; [| exact Hhere].
  intros H. destruct (IH st' H) as [H' | (row0 & Hin & Hk)]; [exact (Hhere H') |].
  right. exists row0. split; [apply list_elem_of_further, Hin | exact Hk].
Qed.

(** X12.  After a completed stock pass, [stocks] holds exactly the keys of
    the rows that pass the required-field test of line 36: every such row
    has its key in it, and it has no other key. *)
Theorem stocks_holds_the_keys_of_the_rows (df : list Row) (s : Store)
    (st1 : state Store) :
  stocks_loop df (init s) = (st1, Ok tt) ->
  forall k, is_Some (stocks st1 !! k) <-> exists row, row ∈ df /\ stock_key row = Some k.
Proof.
  intros Hrun k. split.
  - intros H. pose proof (stocks_loop_dom df (init s) k) as Hd. rewrite Hrun in Hd.
    destruct (Hd H) as [Habs | ?]; [| assumption].
    simpl in Habs. rewrite lookup_empty in Habs. destruct (is_Some_None Habs).
  - intros (row & Hin & Hk). exact (stocks_loop_key df (init s) st1 row k Hin Hk Hrun).
Qed.

(** *** The order and the number of requests *)

Lemma select_before_insert_app (l1 l2 : list call) :
  select_before_insert l1 -> select_before_insert l2 ->
  select_before_insert (l1 ++ l2).
Proof.
  intros H1 H2 n d Hn. apply lookup_app_Some in Hn as [Hn | [Hle Hn]].
  - destruct (H1 n d Hn) as (m & -> & Hm). exists m. split; [reflexivity |].
    apply lookup_app_l_Some. exact Hm.
  - destruct (H2 _ d Hn) as (m & Heq & Hm). exists (length l1 + m). split; [lia |].
    rewrite lookup_app_r by lia.
    replace (length l1 + m - length l1) with m by lia. exact Hm.
Qed.

Lemma select_before_insert_miss row k (new : list call) :
  new = [] \/ new = [InsertStock (mk_stock_data row k.1 k.2)] ->
  select_before_insert (SelectStock k.1 k.2 :: new).
Proof.
  intros [-> | ->] [| [| n]] d H; simpl in H; try discriminate.
  injection H as <-. exists 0. split; reflexivity.
Qed.

Lemma stocks_body_order row st :
  select_before_insert (log st) -> select_before_insert (log (stocks_body row st).1).
Proof.
  intros H. destruct (stock_key row) as [k0 |] eqn:Hk.
  - destruct (stocks st !! k0) as [id0 |] eqn:Hin.
    + rewrite (stocks_body_hit row st k0 Hk) by (rewrite Hin; eauto). exact H.
    + destruct (stocks_body_miss row st k0 Hk Hin) as (new & -> & Hnew & _).
      apply select_before_insert_app; [exact H |].
      exact (select_before_insert_miss row k0 new Hnew).
  - rewrite (stocks_body_no_key row st Hk). exact H.
Qed.

Lemma trades_body_order row st :
  select_before_insert (log st) ->
  select_before_insert (log (trades_body row st).1).
Proof.
  intros H. destruct (trades_body_cases row st)
    as [-> | (k & id & u & ts & printed & _ & _ & _ & _ & _ & _ & -> & _)];
    [exact H |].
  apply select_before_insert_app; [exact H |].
  intros [| n] d Hn; simpl in Hn; discriminate.
Qed.

Lemma loop_order (body : Row -> M unit) (df : list Row) st :
  (forall row st0, select_before_insert (log st0) ->
     select_before_insert (log (body row st0).1)) ->
  select_before_insert (log st) ->
  select_before_insert (log (for_each body df st).1).
Proof.
  intros Hbody H.
  pose proof (for_each_inv (fun st0 => select_before_insert (log st0))
                (fun st0 => select_before_insert (log st0)) body df
                (fun _ H0 => H0)) as Hinv.
  assert (Hstep : forall row st0, row ∈ df -> select_before_insert (log st0) ->
    match body row st0 with
    | (st', Ok _) => select_before_insert (log st')
    | (st', Raise _) => select_before_insert (log st')
    end).
  { intros row st0 _ H0. pose proof (Hbody row st0 H0) as H'.
    destruct (body row st0) as [st' [[] | e]]; exact H'. }
  specialize (Hinv Hstep st H).
  destruct (for_each body df st) as [st' [[] | e]]; exact Hinv.
Qed.

(** X13.  No stock is inserted without asking first: in the log of a run,
    completed or not, every stock insertion comes immediately after the
    lookup of the same ticker and exchange. *)
Theorem stock_is_looked_up_before_it_is_inserted (df : list Row) (s : Store) :
  select_before_insert (log (import df (init s)).1).
Proof.
  rewrite import_unfold.
  pose proof (loop_order stocks_body df (init s) stocks_body_order) as H1.
  assert (H0 : select_before_insert (log (init s))).
  { intros n d Hn. simpl in Hn. discriminate. }
  specialize (H1 H0). unfold stocks_loop.
  destruct (for_each stocks_body df (init s)) as [st1 [[] | e]]; [| exact H1].
  apply (loop_order (trades_body) df st1 trades_body_order H1).
Qed.

Lemma stocks_body_length row st :
  length (log (stocks_body row st).1) <= length (log st) + 2.
Proof.
  destruct (stock_key row) as [k0 |] eqn:Hk.
  - destruct (stocks st !! k0) as [id0 |] eqn:Hin.
    + rewrite (stocks_body_hit row st k0 Hk) by (rewrite Hin; eauto). simpl. lia.
    + destruct (stocks_body_miss row st k0 Hk Hin) as (new & -> & Hnew & _).
      rewrite length_app. destruct Hnew as [-> | ->]; simpl; lia.
  - rewrite (stocks_body_no_key row st Hk). lia.
Qed.

Lemma trades_body_length row st :
  length (log (trades_body row st).1) <= length (log st) + 1.
Proof.
  destruct (trades_body_cases row st)
    as [-> | (k & id & u & ts & printed & _ & _ & _ & _ & _ & _ & -> & _)];
    [lia |].
  rewrite length_app. simpl. lia.
Qed.

Lemma loop_length (body : Row -> M unit) (n : nat) (df : list Row) st :
  (forall row st0, length (log (body row st0).1) <= length (log st0) + n) ->
  length (log (for_each body df st).1) <= length (log st) + n * length df.
Proof.
  intros Hbody. revert st. induction df as [| row df IH]; intros st; simpl; [lia |].
  unfold bind. pose proof (Hbody row st) as H1.
  destruct (body row st) as [st' [[] | e]]; simpl in *; [| lia].
  pose proof (IH st'). lia.
Qed.

(** X14.  A run sends at most three requests per row, completed or not:
    at most a lookup and an insertion in the stock pass, and at most one
    insertion in the trade pass. *)
Theorem at_most_three_requests_per_row (df : list Row) (s : Store) :
  length (log (stocks_loop df (init s)).1) <= 2 * length df
  /\ length (log (import df (init s)).1) <= 3 * length df.
Proof.
  pose proof (loop_length stocks_body 2 df (init s) stocks_body_length) as H1.
  simpl in H1. split; [unfold stocks_loop; lia |].
  rewrite import_unfold. unfold stocks_loop.
  destruct (for_each stocks_body df (init s)) as [st1 [[] | e]]; simpl in *; [| lia].
  pose proof (loop_length (trades_body) 1 df st1 trades_body_length) as H2.
  unfold trades_loop. lia.
Qed.

(** *** What is written to the store *)

Lemma trades_loop_sends (df : list Row) st (d : trade_data) :
  InsertTrade d ∈ log (trades_loop df st).1 ->
  InsertTrade d ∈ log st
  \/ exists row k id u ts printed,
       row ∈ df /\ trade_key row = Some k
       /\ stocks st !! k = Some id /\ truthy id = true
       /\ str_upper (nan_to_none (Type_ row)) = Ok u
       /\ to_datetime (nan_to_none (Date row)) true = Ok ts
       /\ strftime ts date_format = Ok printed
       /\ d = mk_trade_data row id u printed.
Proof.
  revert st. induction df as [| row df IH]; intros st; [simpl; auto |].
  unfold trades_loop in *. simpl. unfold bind.
  pose proof (trades_body_cases row st) as Hc.
  pose proof (trades_body_stocks row st) as Hst.
  assert (Hhere : InsertTrade d ∈ log (trades_body row st).1 ->
    InsertTrade d ∈ log st
    \/ exists row0 k id u ts printed,
         row0 ∈ row :: df /\ trade_key row0 = Some k
         /\ stocks st !! k = Some id /\ truthy id = true
         /\ str_upper (nan_to_none (Type_ row0)) = Ok u
         /\ to_datetime (nan_to_none (Date row0)) true = Ok ts
         /\ strftime ts date_format = Ok printed
         /\ d = mk_trade_data row0 id u printed).
  { destruct Hc as [-> | (k & id & u & ts & printed & Hk & Hin & Hid & Hu & Hts & Hpr & -> & _)];
      [auto |].
    rewrite elem_of_app. intros [H | H]; [auto |].
    apply list_elem_of_singleton in H. injection H as ->.
    right. exists row, k, id, u, ts, printed. split; [apply list_elem_of_here | auto 8]. }
  destruct (trades_body row st) as [st' [[] | e]]; simpl in *; [| exact Hhere].
  intros H. destruct (IH st' H)
    as [H' | (row0 & k & id & u & ts & printed & Hin & Hk & Hs & Hid & Hu & Hts & Hpr & Hd)];
    [exact (Hhere H') |].
  right. exists row0, k, id, u, ts, printed. rewrite <- Hst.
  split; [apply list_elem_of_further, Hin | auto 8].
Qed.

(** X15.  Every trade sent during a run, completed or not, comes from a
    row of the frame that passes the test of line 64: its stock_id is the
    truthy identifier that [stocks] holds for the row's key, its quantity
    is the row's and is truthy (never missing, never 0), its trade_type is
    [upper] of the row's type, a non-empty string, its trade_date is the
    parse of the row's date with [dayfirst=True] printed with the format
    of line 74, and its notes are empty. *)
Theorem every_trade_sent_is_well_formed (df : list Row) (s : Store) (d : trade_data) :
  InsertTrade d ∈ log (import df (init s)).1 ->
  exists row k t ts,
    row ∈ df
    /\ trade_key row = Some k
    /\ stocks (import df (init s)).1 !! k = Some (td_stock_id d)
    /\ truthy (td_stock_id d) = true
    /\ td_quantity d = nan_to_none (Quantity row)
    /\ truthy (td_quantity d) = true
    /\ nan_to_none (Type_ row) = VStr t
    /\ t <> EmptyString
    /\ td_trade_type d = upper t
    /\ to_datetime (nan_to_none (Date row)) true = Ok ts
    /\ strftime ts "%Y-%m-%d" = Ok (td_trade_date d)
    /\ td_notes d = EmptyString.
Proof.
  intros Hd. rewrite import_unfold in *.
  pose proof (stocks_loop_log df (init s) d) as Hno.
  destruct (stocks_loop df (init s)) as [st1 [[] | e]]; simpl in *;
    [| apply Hno in Hd; inversion Hd].
  destruct (trades_loop_sends df st1 d Hd)
    as [H | (row & k & id & u & ts & printed & Hin & Hk & Hs & Hid & Hu & Hts & Hpr & ->)];
    [apply Hno in H; inversion H |].
  destruct (trade_key_split row k Hk) as (_ & _ & _ & Hty & _ & Hq).
  rewrite (trades_loop_stocks df st1). simpl.
  destruct (nan_to_none (Type_ row)) as [| | t | q] eqn:Ht; try discriminate.
  injection Hu as <-.
  exists row, k, t, ts. repeat (split; [first [assumption | reflexivity] |]).
  split; [intros ->; discriminate |]. auto.
Qed.

Lemma split_truthy_ticker (x t : value) (e : string) :
  split_ticker_exchange x = Ok (t, e) -> truthy t = true -> exists s, x = VStr s.
Proof.
  destruct x as [| | s | q]; [| discriminate | eauto |].
  - intros [= <- <-]. discriminate.
  - unfold split_ticker_exchange. destruct (truthy (VNum q)) eqn:E; [discriminate |].
    intros [= <- <-]. congruence.
Qed.

(** X16.  Every stock sent during a run, completed or not, is well
    formed: its ticker is a non-empty string without a dot, its exchange
    has no dot, and its name is truthy (never missing, never empty). *)
Theorem every_stock_sent_is_well_formed (df : list Row) (s : Store) (d : stock_data) :
  InsertStock d ∈ log (import df (init s)).1 ->
  (exists t, sd_ticker d = VStr t /\ t <> EmptyString /\ contains_dot t = false)
  /\ contains_dot (sd_exchange d) = false
  /\ truthy (sd_name d) = true.
Proof.
  intros Hd.
  assert (Hd1 : InsertStock d ∈ log (stocks_loop df (init s)).1).
  { rewrite import_unfold in Hd.
    destruct (stocks_loop df (init s)) as [st1 [[] | e]] eqn:E; simpl; [| exact Hd].
    destruct (trades_loop_log df st1 _ Hd)
      as [? | (row & id & u & ts & printed & _ & _ & _ & ?)]; [assumption | discriminate]. }
  destruct (stocks_loop_insert_origin df (init s) d Hd1)
    as [Habs | (_ & i & row & _ & Hk & _ & Heq)]; [inversion Habs |].
  destruct (stock_key_split row _ Hk) as (Hs & Ht & Hn). simpl in Ht.
  destruct (split_truthy_ticker _ _ _ Hs Ht) as [s0 Hx]. rewrite Hx in Hs.
  destruct (split_string_parts s0 _ _ Hs) as (t' & Htk & Hdot & Hex).
  split; [| split; [exact Hex | rewrite Heq; exact Hn]].
  exists t'. split; [exact Htk |]. split; [| exact Hdot].
  rewrite Htk in Ht. intros ->. discriminate.
Qed.

(** *** The stock pass over rows already seen *)

Lemma for_each_noop {A : Type} (body : A -> M unit) (l : list A) st :
  (forall x, x ∈ l -> body x st = (st, Ok tt)) -> for_each body l st = (st, Ok tt).
Proof.
  induction l as [| x l IH]; intros H; simpl; [reflexivity |].
  unfold bind. rewrite (H x (list_elem_of_here x l)). apply IH.
  intros y Hy. apply H, list_elem_of_further, Hy.
Qed.

(** X17.  Once the stock pass has completed over a frame, every row of
    the frame is a cache hit or a skipped row: running the stock pass over
    the same rows again, in the same process, sends no request and changes
    nothing. *)
Theorem stock_pass_again_sends_nothing (df : list Row) st (st1 : state Store) :
  stocks_loop df st = (st1, Ok tt) -> stocks_loop df st1 = (st1, Ok tt).
Proof.
  intros Hrun. apply for_each_noop. intros row Hin.
  destruct (stock_key row) as [k |] eqn:Hk.
  - apply (stocks_body_hit row st1 k Hk).
    exact (stocks_loop_key df st st1 row k Hin Hk Hrun).
  - pose proof Hin as Hin'. apply list_elem_of_split in Hin' as (l1 & l2 & ->).
    unfold stocks_loop in Hrun.
    apply for_each_prefix_ok in Hrun as (sta & _ & H2). simpl in H2. unfold bind in H2.
    unfold stock_key in Hk.
    destruct (split_ticker_exchange (Ticker row)) as [[t e] | err] eqn:Hs.
    + apply (stocks_body_skip row st1 t e Hs).
      destruct (truthy t && truthy (nan_to_none (Holding row))); [discriminate | reflexivity].
    + rewrite (stocks_body_raise row sta err Hs) in H2. discriminate.
Qed.

End Behaviour.

(** ** Further behaviour on examples *)

Lemma split_ticker_exchange_parts_have_no_dot_witness :
  split_ticker_exchange (VStr "A.B.C") = Ok (VStr "A", "B")
  /\ exists t', VStr "A" = VStr t' /\ contains_dot t' = false /\ contains_dot "B" = false.
Proof.
  split; [reflexivity |].
  exact (split_ticker_exchange_parts_have_no_dot "A.B.C" (VStr "A") "B" eq_refl).
Defined.

Lemma existing_stock_is_adopted_witness :
  stock_key row_ogzd_again = Some ogzd_key
  /\ stocks (init mem_with_ogzd) !! ogzd_key = None
  /\ select_stock ogzd_key.1 ogzd_key.2 (remote (init mem_with_ogzd))
     = (mem_with_ogzd, Ok [number 7])
  /\ stocks_body row_ogzd_again (init mem_with_ogzd)
     = ({| remote := mem_with_ogzd;
           log := [SelectStock (VStr "OGZD") "LSE"];
           stocks := <[ogzd_key := number 7]> ∅ |}, Ok tt).
Proof.
  split; [reflexivity |]. split; [reflexivity |]. split; [reflexivity |].
  exact (existing_stock_is_adopted row_ogzd_again (init mem_with_ogzd) ogzd_key
           mem_with_ogzd (number 7) [] eq_refl eq_refl eq_refl).
Defined.

Lemma unknown_stock_is_inserted_witness :
  stock_key row_ogzd = Some ogzd_key
  /\ stocks (init (mem_empty 1)) !! ogzd_key = None
  /\ log (stocks_body row_ogzd (init (mem_empty 1))).1
     = [SelectStock (VStr "OGZD") "LSE";
        InsertStock (mk_stock_data row_ogzd (VStr "OGZD") "LSE")]
  /\ stocks (stocks_body row_ogzd (init (mem_empty 1))).1 !! ogzd_key = Some (number 1).
Proof.
  split; [reflexivity |]. split; [reflexivity |].
  pose proof (proj1 (unknown_stock_is_inserted row_ogzd (init (mem_empty 1)) ogzd_key
                       (mem_empty 1)
                       (mem_insert_stock (mk_stock_data row_ogzd (VStr "OGZD") "LSE")
                          (mem_empty 1)).1
                       (number 1) [] eq_refl eq_refl eq_refl eq_refl)) as H.
  rewrite H. split; reflexivity.
Defined.

Lemma failed_stock_request_stores_nothing_witness :
  stock_key row_ogzd = Some ogzd_key
  /\ stocks (init offline) !! ogzd_key = None
  /\ stocks_body row_ogzd (init offline)
     = ({| remote := offline; log := [SelectStock (VStr "OGZD") "LSE"]; stocks := ∅ |},
        Raise APIError).
Proof.
  split; [reflexivity |]. split; [reflexivity |].
  exact (proj1 (failed_stock_request_stores_nothing row_ogzd (init offline) ogzd_key
                  eq_refl eq_refl) offline APIError eq_refl).
Defined.

Lemma stock_is_created_for_an_incomplete_trade_witness :
  stock_key row_no_quantity = Some ogzd_key
  /\ isna (Type_ row_no_quantity) || isna (Date row_no_quantity)
     || isna (Quantity row_no_quantity) = true
  /\ trades_body row_no_quantity sample_after_stocks
     = (sample_after_stocks, Ok tt)
  /\ exists new,
       log (stocks_body row_no_quantity (init (mem_empty 1))).1
       = SelectStock (VStr "OGZD") "LSE" :: new.
Proof.
  split; [reflexivity |]. split; [reflexivity |].
  destruct (stock_is_created_for_an_incomplete_trade (Store := MemStore)
              row_no_quantity ogzd_key eq_refl eq_refl)
    as [Htrade Hstock].
  split; [apply Htrade |]. exact (Hstock (init (mem_empty 1)) eq_refl).
Defined.

Lemma failed_stock_pass_inserts_no_trade_witness :
  stocks_loop sample_frame (init offline)
  = ((stocks_loop sample_frame (init offline)).1, Raise APIError)
  /\ (import sample_frame (init offline)).2 = Raise APIError
  /\ trades_in (log (stocks_loop sample_frame (init offline)).1) = [].
Proof.
  assert (H : stocks_loop sample_frame (init offline)
              = ((stocks_loop sample_frame (init offline)).1, Raise APIError))
    by (vm_compute; reflexivity).
  split; [exact H |].
  destruct (failed_stock_pass_inserts_no_trade sample_frame offline
              _ APIError H) as [Hrun Hlog].
  rewrite Hrun. split; [reflexivity | exact Hlog].
Defined.

Lemma conversion_error_stops_the_trade_pass_witness :
  trade_key row_bad_date = Some (VStr "CASH", EmptyString)
  /\ truthy (default VNone (stocks sample_after_stocks !! (VStr "CASH", EmptyString))) = true
  /\ (trades_loop [row_ogzd; row_bad_date; row_cash]
        sample_after_stocks).2 = Raise ValueError
  /\ length (trades_in (log (trades_loop
                               [row_ogzd; row_bad_date; row_cash]
                               sample_after_stocks).1)) = 1.
Proof.
  assert (H1 : trades_loop [row_ogzd] sample_after_stocks
               = ((trades_loop [row_ogzd] sample_after_stocks).1, Ok tt))
    by (vm_compute; reflexivity).
  assert (H2 : truthy (default VNone
                 (stocks sample_after_stocks !! (VStr "CASH", EmptyString))) = true)
    by (vm_compute; reflexivity).
  split; [reflexivity |]. split; [exact H2 |].
  destruct (conversion_error_stops_the_trade_pass [row_ogzd] [row_cash]
              row_bad_date sample_after_stocks _ (VStr "CASH", EmptyString) ValueError
              H1 eq_refl H2 eq_refl) as [Hrun _].
  change ([row_ogzd; row_bad_date; row_cash]) with ([row_ogzd] ++ row_bad_date :: [row_cash]).
  rewrite Hrun. split; [reflexivity | vm_compute; reflexivity].
Defined.

Lemma trades_follow_the_rows_witness :
  sample_run = (sample_run.1, Ok tt)
  /\ trades_in (log sample_run.1)
     = omap (trade_of (stocks sample_run.1)) sample_frame.
Proof.
  assert (H : import sample_frame (init (mem_empty 1))
              = (sample_run.1, Ok tt)) by (vm_compute; reflexivity).
  split; [exact H |].
  exact (proj1 (trades_follow_the_rows sample_frame (mem_empty 1)
                  sample_run.1 H)).
Defined.

Lemma every_complete_row_gets_a_trade_witness :
  import (sample_frame ++ [row_zero_quantity]) (init mem_with_ogzd)
  = ((import (sample_frame ++ [row_zero_quantity])
        (init mem_with_ogzd)).1, Ok tt)
  /\ length (trades_in (log (import
                               (sample_frame ++ [row_zero_quantity])
                               (init mem_with_ogzd)).1)) = 3.
Proof.
  assert (H : import (sample_frame ++ [row_zero_quantity])
                (init mem_with_ogzd)
              = ((import (sample_frame ++ [row_zero_quantity])
                    (init mem_with_ogzd)).1, Ok tt)) by (vm_compute; reflexivity).
  split; [exact H |].
  rewrite (every_complete_row_gets_a_trade
             (sample_frame ++ [row_zero_quantity]) mem_with_ogzd _ H);
    [reflexivity |].
  refine (bool_decide_unpack (map_Forall _ _) _). vm_compute. exact I.
Defined.

Lemma stocks_holds_the_keys_of_the_rows_witness :
  stocks_loop sample_frame (init (mem_empty 1)) = (sample_after_stocks, Ok tt)
  /\ (is_Some (stocks sample_after_stocks !! ogzd_key)
      <-> exists row, row ∈ sample_frame /\ stock_key row = Some ogzd_key).
Proof.
  assert (H : stocks_loop sample_frame (init (mem_empty 1)) = (sample_after_stocks, Ok tt))
    by (vm_compute; reflexivity).
  split; [exact H |].
  exact (stocks_holds_the_keys_of_the_rows sample_frame (mem_empty 1) sample_after_stocks
           H ogzd_key).
Defined.

Lemma every_trade_sent_is_well_formed_witness :
  InsertTrade (mk_trade_data row_ogzd (number 1) "BUY" "2020-03-05") ∈ log sample_run.1
  /\ exists row k t,
       row ∈ sample_frame
       /\ trade_key row = Some k
       /\ stocks sample_run.1 !! k = Some (number 1)
       /\ nan_to_none (Type_ row) = VStr t
       /\ "BUY" = upper t.
Proof.
  assert (Hin : InsertTrade (mk_trade_data row_ogzd (number 1) "BUY" "2020-03-05")
                ∈ log sample_run.1).
  { apply (list_elem_of_lookup_2 _ 4). reflexivity. }
  split; [exact Hin |].
  destruct (every_trade_sent_is_well_formed sample_frame (mem_empty 1) _ Hin)
    as (row & k & t & ts & Hrow & Hk & Hs & _ & _ & _ & Ht & _ & Hup & _).
  exists row, k, t. auto.
Defined.

Lemma every_stock_sent_is_well_formed_witness :
  InsertStock (mk_stock_data row_cash (VStr "CASH") EmptyString) ∈ log sample_run.1
  /\ contains_dot EmptyString = false
  /\ truthy (VStr "Cash GBP") = true.
Proof.
  assert (Hin : InsertStock (mk_stock_data row_cash (VStr "CASH") EmptyString)
                ∈ log sample_run.1).
  { apply (list_elem_of_lookup_2 _ 3). reflexivity. }
  split; [exact Hin |].
  destruct (every_stock_sent_is_well_formed sample_frame (mem_empty 1)
              _ Hin) as (_ & Hex & Hn).
  split; [exact Hex | exact Hn].
Defined.

Lemma stock_pass_again_sends_nothing_witness :
  stocks_loop sample_frame (init (mem_empty 1)) = (sample_after_stocks, Ok tt)
  /\ stocks_loop sample_frame sample_after_stocks = (sample_after_stocks, Ok tt).
Proof.
  assert (H : stocks_loop sample_frame (init (mem_empty 1)) = (sample_after_stocks, Ok tt))
    by (vm_compute; reflexivity).
  split; [exact H |].
  exact (stock_pass_again_sends_nothing sample_frame (init (mem_empty 1))
           sample_after_stocks H).
Defined.
